(** * Notus metadata loader of ospd-openvas: a shallow embedding

    The development follows [ospd_openvas/notus/metadata.py]: the class
    [NotusMetadataHandler] verifies the checksum of every CSV file of the
    Notus metadata directory, reads the family/driver link and the general
    metadata from the file header, validates every advisory row and writes
    one 15-entry metadata list per advisory into the Redis KB.

    Python values are embedded as the inductive type [PyVal]; raised
    exceptions are the [Raise] results of the type [result]; the handler's
    attributes and the observable effects (log records, opened files, KB
    writes) are threaded through a state monad.

    What lies outside the source file is taken as given: [ast.literal_eval],
    [hashlib.sha256], [csv.reader] and the class [NVTICache] are interfaces
    over which every general statement quantifies; the settings, the process
    environment, the KB and the files are the fields of [World].  A
    directory listing holds resolved absolute paths, in the order in which
    [glob] reports them; a text file is read as the bytes it holds, with the
    line feed as line end. *)

From Stdlib Require Import String Ascii List ZArith Lia Bool.
From stdpp Require Import base option list gmap strings pretty.
From Equations Require Import Equations.

Set Warnings "-register-all".
Local Open Scope nat_scope.

(** ** Exceptions and results *)

Inductive exn : Type :=
| KeyError
| TypeError
| ValueError
| SyntaxError
| AttributeError
| UnboundLocalError
| FileNotFoundError
| OspdOpenvasError.

Inductive result (A : Type) : Type :=
| Ok (a : A)
| Raise (e : exn).
Arguments Ok {A} a.
Arguments Raise {A} e.

Definition rbind {A B} (r : result A) (k : A -> result B) : result B :=
  match r with
  | Ok a => k a
  | Raise e => Raise e
  end.

Notation "'let*' x ':=' r 'in' k" := (rbind r (fun x => k))
  (at level 10, x pattern, r at level 100, k at level 200).

Global Instance exn_eq_dec : EqDecision exn.
Proof. solve_decision. Defined.

(** ** Python values *)

(** The values that flow through the handler: settings, CSV cells, and the
    results of [ast.literal_eval].  A [str] is a byte string (exact for
    ASCII text); a [dict] keeps its items in insertion order. *)
Inductive PyVal : Type :=
| PNone
| PBool (b : bool)
| PInt (z : Z)
| PStr (s : string)
| PList (l : list PyVal)
| PTuple (l : list PyVal)
| PDict (d : list (PyVal * PyVal)).

Coercion PStr : string >-> PyVal.

Abbreviation items := (list (PyVal * PyVal)).

(** The newline and the two quote characters. *)
Definition LF : ascii := "010"%char.
Definition CR : ascii := "013"%char.
Definition TAB : ascii := "009"%char.
Definition SQUOTE : ascii := "039"%char.
Definition DQUOTE : ascii := "034"%char.
Definition BACKSLASH : ascii := "092"%char.
Definition nl : string := String LF "".

(** [bool(x)]. *)
Definition py_truth (v : PyVal) : bool :=
  match v with
  | PNone => false
  | PBool b => b
  | PInt z => negb (z =? 0)%Z
  | PStr s => negb (String.eqb s "")
  | PList l | PTuple l => negb (Nat.eqb (length l) 0)
  | PDict d => negb (Nat.eqb (length d) 0)
  end.

(** [len(x)]: a [TypeError] for a value without a length. *)
Definition py_len (v : PyVal) : result nat :=
  match v with
  | PStr s => Ok (String.length s)
  | PList l | PTuple l => Ok (length l)
  | PDict d => Ok (length d)
  | PNone | PBool _ | PInt _ => Raise TypeError
  end.

Fixpoint chars_of (s : string) : list PyVal :=
  match s with
  | EmptyString => []
  | String c s' => PStr (String c "") :: chars_of s'
  end.

(** [iter(x)] run to the end: a [TypeError] for a value that is not iterable. *)
Definition py_iter (v : PyVal) : result (list PyVal) :=
  match v with
  | PStr s => Ok (chars_of s)
  | PList l | PTuple l => Ok l
  | PDict d => Ok (map fst d)
  | PNone | PBool _ | PInt _ => Raise TypeError
  end.

(** [x == y] on the values that can be keys of a dict or cells of a row
    ([True == 1] and [False == 0], as in Python); a dict compares equal to a
    dict with the same items whatever their order. *)
Fixpoint py_eqb (a b : PyVal) {struct a} : bool :=
  match a, b with
  | PNone, PNone => true
  | PBool x, PBool y => Bool.eqb x y
  | PBool x, PInt y => (Z.b2z x =? y)%Z
  | PInt x, PBool y => (x =? Z.b2z y)%Z
  | PInt x, PInt y => (x =? y)%Z
  | PStr x, PStr y => String.eqb x y
  | PList x, PList y | PTuple x, PTuple y =>
      (fix go (x y : list PyVal) {struct x} : bool :=
         match x, y with
         | [], [] => true
         | a :: x', b :: y' => py_eqb a b && go x' y'
         | _, _ => false
         end) x y
  | PDict x, PDict y =>
      Nat.eqb (length x) (length y) &&
      (fix all (x : items) {struct x} : bool :=
         match x with
         | [] => true
         | (k, v) :: x' =>
             existsb (fun kv => py_eqb k (fst kv) && py_eqb v (snd kv)) y && all x'
         end) x
  | _, _ => false
  end.

(** [hash(x)] succeeds: lists and dicts are unhashable. *)
Fixpoint py_hashable (v : PyVal) : bool :=
  match v with
  | PList _ | PDict _ => false
  | PTuple l => (fix all (l : list PyVal) : bool :=
                   match l with [] => true | x :: l' => py_hashable x && all l' end) l
  | _ => true
  end.

(** *** Dicts *)

Fixpoint dict_get (d : items) (k : PyVal) : option PyVal :=
  match d with
  | [] => None
  | (k', v) :: d' => if py_eqb k' k then Some v else dict_get d' k
  end.

(** [d[k] = v]: an existing key keeps its place (and the key object), a new
    key goes to the end. *)
Fixpoint dict_set (d : items) (k v : PyVal) : items :=
  match d with
  | [] => [(k, v)]
  | (k', v') :: d' => if py_eqb k' k then (k', v) :: d' else (k', v') :: dict_set d' k v
  end.

(** [dict(pairs)], [d.update(other_dict)]. *)
Definition dict_update (d other : items) : items :=
  fold_left (fun acc kv => dict_set acc (fst kv) (snd kv)) other d.

(** [x[key]] for a [str] key: only a dict can be subscripted with one. *)
Definition py_getitem (v : PyVal) (key : string) : result PyVal :=
  match v with
  | PDict d => match dict_get d (PStr key) with
               | Some x => Ok x
               | None => Raise KeyError
               end
  | _ => Raise TypeError
  end.

(** [x.popitem()]: the last item of a dict, [KeyError] on an empty one; no
    other value has the method. *)
Definition py_popitem (v : PyVal) : result (PyVal * PyVal * PyVal) :=
  match v with
  | PDict d => match rev d with
               | [] => Raise KeyError
               | (k, x) :: d' => Ok (k, x, PDict (rev d'))
               end
  | _ => Raise AttributeError
  end.

(** *** [str()] and [repr()] *)

Definition hex_digit (n : N) : ascii :=
  match n with
  | 0 => "0" | 1 => "1" | 2 => "2" | 3 => "3" | 4 => "4" | 5 => "5"
  | 6 => "6" | 7 => "7" | 8 => "8" | 9 => "9" | 10 => "a" | 11 => "b"
  | 12 => "c" | 13 => "d" | 14 => "e" | _ => "f"
  end%N%char.

Fixpoint in_chars (c : ascii) (chars : string) : bool :=
  match chars with
  | EmptyString => false
  | String c' chars' => Ascii.eqb c c' || in_chars c chars'
  end.

(** One character of [repr(s)] between the quotes [q]. *)
Definition repr_char (q c : ascii) : string :=
  let n := N_of_ascii c in
  if Ascii.eqb c q || Ascii.eqb c BACKSLASH then String BACKSLASH (String c "")
  else if Ascii.eqb c TAB then String BACKSLASH "t"
  else if Ascii.eqb c LF then String BACKSLASH "n"
  else if Ascii.eqb c CR then String BACKSLASH "r"
  else if (n <? 32)%N || (n =? 127)%N
       then String BACKSLASH (String "x" (String (hex_digit (n / 16)) (String (hex_digit (n mod 16)) "")))
  else String c "".

Fixpoint repr_chars (q : ascii) (s : string) : string :=
  match s with
  | EmptyString => ""
  | String c s' => repr_char q c +:+ repr_chars q s'
  end.

(** [repr(s)] of a [str]: single quotes, unless the text holds a single
    quote and no double quote. *)
Definition repr_str (s : string) : string :=
  let q := if in_chars SQUOTE s && negb (in_chars DQUOTE s) then DQUOTE else SQUOTE in
  String q (repr_chars q s +:+ String q "").

Fixpoint py_repr (v : PyVal) : string :=
  match v with
  | PNone => "None"
  | PBool true => "True"
  | PBool false => "False"
  | PInt z => pretty z
  | PStr s => repr_str s
  | PList l => "[" +:+ String.concat ", " (map py_repr l) +:+ "]"
  | PTuple l =>
      match l with
      | [x] => "(" +:+ py_repr x +:+ ",)"
      | _ => "(" +:+ String.concat ", " (map py_repr l) +:+ ")"
      end
  | PDict d =>
      "{" +:+ String.concat ", "
                (map (fun kv => match kv with
                                | (k, x) => py_repr k +:+ ": " +:+ py_repr x
                                end) d) +:+ "}"
  end.

(** [str(x)], which is also what [format] and an f-string put in a [{}]. *)
Definition py_str (v : PyVal) : string :=
  match v with
  | PStr s => s
  | _ => py_repr v
  end.

(** [sep.join(x)]: [x] must be iterable and every element a [str]. *)
Fixpoint all_str (l : list PyVal) : result (list string) :=
  match l with
  | [] => Ok []
  | PStr s :: l' => let* ss := all_str l' in Ok (s :: ss)
  | _ :: _ => Raise TypeError
  end.

Definition py_join (sep : string) (v : PyVal) : result string :=
  let* l := py_iter v in
  let* ss := all_str l in
  Ok (String.concat sep ss).

(** *** [str] methods and paths *)

(** [s.startswith(p)]. *)
Definition startswith (s p : string) : bool := String.prefix p s.

Definition endswith (s p : string) : bool :=
  String.prefix (String.rev p) (String.rev s).

Fixpoint lstrip (s chars : string) : string :=
  match s with
  | EmptyString => ""
  | String c s' => if in_chars c chars then lstrip s' chars else s
  end.

Definition rstrip (s chars : string) : string :=
  String.rev (lstrip (String.rev s) chars).

(** [s.strip(chars)] removes from both ends every character that occurs in
    [chars]: [chars] is a set of characters, not a prefix. *)
Definition strip (s chars : string) : string := rstrip (lstrip s chars) chars.

(** The lines of a text file, each with its line end, as iterating over
    the open file yields them. *)
Fixpoint readlines (s : string) : list string :=
  match s with
  | EmptyString => []
  | String c s' =>
      if Ascii.eqb c LF then String c "" :: readlines s'
      else match readlines s' with
           | [] => [String c ""]
           | l :: ls => String c l :: ls
           end
  end.

(** [Path(p).name]: what follows the last slash. *)
Fixpoint path_name_go (acc s : string) : string :=
  match s with
  | EmptyString => String.rev acc
  | String c s' => if Ascii.eqb c "/" then path_name_go "" s'
                   else path_name_go (String c acc) s'
  end.

Definition path_name (p : string) : string := path_name_go "" p.

(** [glob(dir + '*.csv')] over a directory listing, for a [dir] without
    wildcard characters: the paths made of [dir] and a rest that holds no
    slash and ends in [.csv], in the order of the listing.  The star does
    not match the dot of a hidden file, that is a rest that starts a path
    component with a dot. *)
Definition glob_star_csv (dir path : string) : bool :=
  startswith path dir &&
  let name := String.substring (String.length dir) (String.length path - String.length dir) path in
  endswith name ".csv" && negb (in_chars "/" name)
  && negb (startswith name "." && (String.eqb dir "" || endswith dir "/")).

(** [d.update(other)] for any value [other]: a dict is merged; any other
    iterable must yield sequences of two elements, the key and the value. *)
Fixpoint update_pairs (d : items) (l : list PyVal) : result items :=
  match l with
  | [] => Ok d
  | e :: l' =>
      let* kv := py_iter e in
      match kv with
      | [k; v] => if py_hashable k then update_pairs (dict_set d k v) l'
                  else Raise TypeError
      | _ => Raise ValueError
      end
  end.

Definition py_dict_update (d : items) (other : PyVal) : result items :=
  match other with
  | PDict o => Ok (dict_update d o)
  | _ => let* l := py_iter other in update_pairs d l
  end.

(** *** Reading a binary file in blocks *)

Definition inspect {A} (a : A) : {b : A | a = b} := exist _ a eq_refl.

(** The blocks that [iter(lambda: f.read(size), b'')] yields: [read]
    returns at most [size] bytes, and the iteration stops at the first empty
    block. *)

Equations? read_blocks (size : nat) (rest : list Byte.byte) : list (list Byte.byte)
  by wf (length rest) lt :=
  read_blocks size rest with inspect (firstn size rest) := {
    | exist _ [] _ => [];
    | exist _ (b :: blk) E => (b :: blk) :: read_blocks size (skipn size rest) }.
Proof.
  destruct size as [|n]; [discriminate E|].
  destruct rest as [|r rest]; [discriminate E|].
  rewrite length_skipn. simpl. lia.
Qed.

(** ** The modules and classes that the handler calls *)

(** [ast.literal_eval] applied to a [str]. *)
Class Ast := { literal_eval : string -> result PyVal }.

(** [hashlib.sha256]: the hex digest of a message.  The hash object is
    modelled by the bytes it was fed: [update] appends, [hexdigest] digests
    what was collected. *)
Class Hashlib := { sha256_hexdigest_of : list Byte.byte -> string }.

(** [csv.reader] over the lines of an open file: the rows, each a list of
    cells. *)
Class Csv := { csv_reader : list string -> list (list string) }.

(** [ospd_openvas.nvticache.NVTICache] over a KB of type [C]:
    [get_file_checksum] gives the recorded digest of a file or [None];
    [add_vt_to_cache] stores a metadata list under a key or raises. *)
Class NVTICache (C : Type) := {
  get_file_checksum : C -> string -> option string;
  add_vt_to_cache : C -> string -> list PyVal -> result C }.

Definition sha256 : list Byte.byte := [].
Definition sha256_update (h block : list Byte.byte) : list Byte.byte := h ++ block.
Definition hexdigest `{Hashlib} (h : list Byte.byte) : string := sha256_hexdigest_of h.

(** [ast.literal_eval(v)]: a value that is neither a [str] nor a syntax
    tree is a malformed node. *)
Definition py_literal_eval `{Ast} (v : PyVal) : result PyVal :=
  match v with
  | PStr s => literal_eval s
  | _ => Raise ValueError
  end.

(** ** Constants of the module *)

Definition EXPECTED_FIELD_NAMES_LIST : list string :=
  [ "OID"; "TITLE"; "CREATION_DATE"; "LAST_MODIFICATION"; "SOURCE_PKGS";
    "ADVISORY_ID"; "SEVERITY_ORIGIN"; "SEVERITY_DATE"; "SEVERITY_VECTOR";
    "ADVISORY_XREF"; "DESCRIPTION"; "INSIGHT"; "AFFECTED"; "CVE_LIST";
    "BINARY_PACKAGES_FOR_RELEASES"; "XREFS"; "FILENAME" ].

Definition METADATA_DIRECTORY_NAME : string := "notus_metadata".

Definition SCRIPT_CATEGORY : string := "3".
Definition SCRIPT_TIMEOUT : string := "0".
Definition BIDS : string := "".
Definition REQUIRED_KEYS : string := "".
Definition MANDATORY_KEYS : string := "".
Definition EXCLUDED_KEYS : string := "".
Definition REQUIRED_UDP_PORTS : string := "".
Definition REQUIRED_PORTS : string := "".
Definition DEPENDENCIES : string := "".

(** ** Validation and formatting (the methods that use no attribute) *)

Section Pure.
Context `{!Ast}.

(** [_check_field_names_lsc]: [reader.fieldnames] is [None] or a list. *)
Definition _check_field_names_lsc (field_names_list : PyVal) : bool :=
  if negb (py_eqb (PList (map PStr EXPECTED_FIELD_NAMES_LIST)) field_names_list)
  then false
  else true.

(** [_check_advisory_dict]: the loop over [advisory_dict.items()].  Only
    [ValueError] and [TypeError] are caught around the evaluation of the
    [SOURCE_PKGS] cell. *)
Fixpoint _check_advisory_dict (advisory_dict : items) : result bool :=
  match advisory_dict with
  | [] => Ok true
  | (key, value) :: rest =>
      if negb (py_truth value) then Ok false
      else
        match (if py_eqb key (PStr "SOURCE_PKGS")
               then let* v := py_literal_eval value in
                    let* n := py_len v in
                    Ok (Nat.eqb n 0)
               else Ok false) with
        | Ok true => Ok false
        | Ok false => _check_advisory_dict rest
        | Raise ValueError | Raise TypeError => Ok false
        | Raise e => Raise e
        end
  end.

(** [_format_xrefs]. *)
Definition _format_xrefs (advisory_xref_string xrefs_list : PyVal) : result string :=
  let formatted_list := [] in
  let advisory_xref_string := "URL:" +:+ py_str advisory_xref_string in
  let formatted_list := formatted_list ++ [advisory_xref_string] in
  let* urls := py_iter xrefs_list in
  let formatted_list :=
    fold_left (fun acc url_string => acc ++ ["URL:" +:+ py_str url_string])
              urls formatted_list in
  Ok (String.concat ", " formatted_list).

(** The tags string: the format template of the source with its twelve
    arguments in order. *)
Definition tags_format (a : list string) : string :=
  match a with
  | [a1; a2; a3; a4; a5; a6; a7; a8; a9; a10; a11; a12] =>
      "severity_origin=" +:+ a1 +:+ "|severity_date=" +:+ a2 +:+
      "|severity_vector=" +:+ a3 +:+ "|last_modification=" +:+ a4 +:+
      "|creation_date=" +:+ a5 +:+ "|summary=" +:+ a6 +:+ "|vuldetect=" +:+ a7 +:+
      "|insight=" +:+ a8 +:+ "|affected=" +:+ a9 +:+ "|solution=" +:+ a10 +:+
      "|solution_type=" +:+ a11 +:+ "|qod_type=" +:+ a12
  | _ => ""
  end.

(** The body of the loop of [upload_lsc_from_csv_reader] from the lookup of
    the OID to the last [append]: the key [nvt:<OID>] and the metadata
    list of one advisory.  Every subscript can raise [KeyError], every
    evaluation of a list cell whatever [ast.literal_eval] raises. *)
Definition advisory_metadata_list (advisory_dict general_metadata_dict family : PyVal)
  : result (string * list PyVal) :=
  let* oid := py_getitem advisory_dict "OID" in
  let* filename := py_getitem advisory_dict "FILENAME" in
  let l := [PStr (METADATA_DIRECTORY_NAME +:+ "/" +:+ py_str filename)] in
  let l := l ++ [PStr REQUIRED_KEYS] in
  let l := l ++ [PStr MANDATORY_KEYS] in
  let l := l ++ [PStr EXCLUDED_KEYS] in
  let l := l ++ [PStr REQUIRED_UDP_PORTS] in
  let l := l ++ [PStr REQUIRED_PORTS] in
  let l := l ++ [PStr DEPENDENCIES] in
  let* a1 := py_getitem advisory_dict "SEVERITY_ORIGIN" in
  let* a2 := py_getitem advisory_dict "SEVERITY_DATE" in
  let* a3 := py_getitem advisory_dict "SEVERITY_VECTOR" in
  let* a4 := py_getitem advisory_dict "LAST_MODIFICATION" in
  let* a5 := py_getitem advisory_dict "CREATION_DATE" in
  let* a6 := py_getitem advisory_dict "DESCRIPTION" in
  let* a7 := py_getitem general_metadata_dict "VULDETECT" in
  let* a8 := py_getitem advisory_dict "INSIGHT" in
  let* a9 := py_getitem advisory_dict "AFFECTED" in
  let* a10 := py_getitem general_metadata_dict "SOLUTION" in
  let* a11 := py_getitem general_metadata_dict "SOLUTION_TYPE" in
  let* a12 := py_getitem general_metadata_dict "QOD_TYPE" in
  let tags_string :=
    tags_format (map py_str [a1; a2; a3; a4; a5; a6; a7; a8; a9; a10; a11; a12]) in
  let l := l ++ [PStr tags_string] in
  let* cve_cell := py_getitem advisory_dict "CVE_LIST" in
  let* cve_list := py_literal_eval cve_cell in
  let* cves := py_join ", " cve_list in
  let l := l ++ [PStr cves] in
  let l := l ++ [PStr BIDS] in
  let* advisory_xref := py_getitem advisory_dict "ADVISORY_XREF" in
  let* xrefs_cell := py_getitem advisory_dict "XREFS" in
  let* xrefs_list := py_literal_eval xrefs_cell in
  let* xrefs := _format_xrefs advisory_xref xrefs_list in
  let l := l ++ [PStr xrefs] in
  let l := l ++ [PStr SCRIPT_CATEGORY] in
  let l := l ++ [PStr SCRIPT_TIMEOUT] in
  let l := l ++ [family] in
  let* title := py_getitem advisory_dict "TITLE" in
  let l := l ++ [title] in
  Ok ("nvt:" +:+ py_str oid, l).

End Pure.

(** ** The handler: attributes, environment and effects *)

Inductive level : Type := DEBUG | WARNING.

(** What a run does to the outside: log records, files opened, directory
    searches, KB reads and KB writes. *)
Inductive event : Type :=
| Log (lvl : level) (msg : string)
| FileOpen (path mode : string)
| FileGlob (pattern : string)
| KbChecksum (path : string)
| KbWrite (vt_id : string) (vt : list PyVal).

(** An open text file: all its lines and the lines not yet read. *)
Record IO : Type := mkIO { io_lines : list string; io_rest : list string }.

Definition seek0 (f : IO) : IO := mkIO (io_lines f) (io_lines f).

Section Handler.
Context {C : Type} `{!NVTICache C} `{!Ast} `{!Hashlib} `{!Csv}.

(** The attributes of a [NotusMetadataHandler] ([None] until set), with
    the effects performed so far. *)
Record Handler : Type := mkHandler {
  _nvti : option C;
  _metadata_path : option string;
  _openvas_settings_dict : option (gmap string PyVal);
  trace : list event }.

(** What the handler finds around it: the settings [Openvas().get_settings()]
    reports, the process environment, the KB that [MainDB()] connects to
    ([None]: the connection fails with [SystemExit]), and the files on disk
    by absolute path, in the order the directory is listed. *)
Record World : Type := mkWorld {
  get_settings : gmap string PyVal;
  environ : gmap string string;
  MainDB : option C;
  files : list (string * list Byte.byte) }.

Variable W : World.

(** State and exceptions: a raised exception keeps the state reached. *)
Definition M (A : Type) : Type := Handler -> result A * Handler.

Definition ret {A} (a : A) : M A := fun self => (Ok a, self).
Definition raise {A} (e : exn) : M A := fun self => (Raise e, self).
Definition bind {A B} (m : M A) (k : A -> M B) : M B :=
  fun self => match m self with
              | (Ok a, self') => k a self'
              | (Raise e, self') => (Raise e, self')
              end.
Definition lift {A} (r : result A) : M A := fun self => (r, self).
Definition emit (e : event) : M unit :=
  fun self => (Ok tt, mkHandler (_nvti self) (_metadata_path self)
                                (_openvas_settings_dict self) (trace self ++ [e])).

Notation "'let!' x ':=' m 'in' k" := (bind m (fun x => k))
  (at level 10, x pattern, m at level 100, k at level 200).

(** [for x in l: body], where [continue] ends the body. *)
Fixpoint for_each {A} (l : list A) (body : A -> M unit) : M unit :=
  match l with
  | [] => ret tt
  | x :: l' => let! _ := body x in for_each l' body
  end.

Definition set_nvti (c : C) : M unit :=
  fun self => (Ok tt, mkHandler (Some c) (_metadata_path self)
                                (_openvas_settings_dict self) (trace self)).
Definition set_metadata_path (p : string) : M unit :=
  fun self => (Ok tt, mkHandler (_nvti self) (Some p)
                                (_openvas_settings_dict self) (trace self)).
Definition set_openvas_settings_dict (d : gmap string PyVal) : M unit :=
  fun self => (Ok tt, mkHandler (_nvti self) (_metadata_path self) (Some d) (trace self)).

(** [d.get(key)]. *)
Definition settings_get (d : gmap string PyVal) (key : string) : PyVal :=
  default PNone (d !! key).

(** Property [nvti]: connects on first use; a failed connection is an
    [OspdOpenvasError]. *)
Definition nvti : M C :=
  fun self => match _nvti self with
              | Some c => (Ok c, self)
              | None => match MainDB W with
                        | Some c => (let! _ := set_nvti c in ret c) self
                        | None => (Raise OspdOpenvasError, self)
                        end
              end.

(** Property [openvas_setting]. *)
Definition openvas_setting : M (gmap string PyVal) :=
  fun self => match _openvas_settings_dict self with
              | Some d => (Ok d, self)
              | None => (let! _ := set_openvas_settings_dict (get_settings W) in
                         ret (get_settings W)) self
              end.

(** Property [metadata_path]. *)
Definition metadata_path : M string :=
  fun self =>
    match _metadata_path self with
    | Some p => (Ok p, self)
    | None =>
        (let! settings := openvas_setting in
         let plugins_folder := settings_get settings "plugins_folder" in
         if py_truth plugins_folder then
           let p := py_str plugins_folder +:+ "/" +:+ METADATA_DIRECTORY_NAME +:+ "/" in
           let! _ := set_metadata_path p in ret p
         else
           let install_prefix :=
             match environ W !! "INSTALL_PREFIX" with
             | Some s => PStr s
             | None => PNone
             end in
           if negb (py_truth install_prefix) then
             let p := "/opt/greenbone/feed/plugins/" +:+ METADATA_DIRECTORY_NAME +:+ "/" in
             let! _ := set_metadata_path p in ret p
           else
             let p := py_str install_prefix +:+ "/var/lib/openvas/plugins/"
                      +:+ METADATA_DIRECTORY_NAME +:+ "/" in
             let! _ := set_metadata_path p in ret p) self
    end.

(** [_get_csv_filepaths]; the files of the listing are given by their
    resolved absolute paths. *)
Definition _get_csv_filepaths : M (list string) :=
  let! dir := metadata_path in
  let! _ := emit (FileGlob (dir +:+ "*.csv")) in
  ret (List.filter (glob_star_csv dir) (map fst (files W))).

Fixpoint lookup_file (fs : list (string * list Byte.byte)) (path : string)
  : option (list Byte.byte) :=
  match fs with
  | [] => None
  | (p, content) :: fs' => if String.eqb p path then Some content else lookup_file fs' path
  end.

(** [path.open(mode)]: the bytes of the file. *)
Definition open_file (path mode : string) : M (list Byte.byte) :=
  let! _ := emit (FileOpen path mode) in
  match lookup_file (files W) path with
  | Some content => ret content
  | None => raise FileNotFoundError
  end.

(** [path.open("r")]: a text file positioned at its first line. *)
Definition open_text (path : string) : M IO :=
  let! content := open_file path "r" in
  let lines := readlines (string_of_list_byte content) in
  ret (mkIO lines lines).

(** [is_checksum_correct]. *)
Definition is_checksum_correct (file_abs_path : string) : M bool :=
  let! settings := openvas_setting in
  let no_signature_check := settings_get settings "nasl_no_signature_check" in
  if negb (py_truth no_signature_check) then
    let! file_file_bytes := open_file file_abs_path "rb" in
    let sha256_object := sha256 in
    let sha256_object :=
      fold_left sha256_update (read_blocks 4096 file_file_bytes) sha256_object in
    let file_calculated_checksum_string := hexdigest sha256_object in
    let! cache := nvti in
    let! _ := emit (KbChecksum file_abs_path) in
    let file_downloaded_checksum_string := get_file_checksum cache file_abs_path in
    if negb (bool_decide (Some file_calculated_checksum_string
                          = file_downloaded_checksum_string))
    then ret false
    else ret true
  else ret true.


(** [try: m except e: handler]. *)
Definition try_except {A} (m : M A) (e : exn) (handler : M A) : M A :=
  fun self => match m self with
              | (Raise e', self') => if decide (e' = e) then handler self'
                                     else (Raise e', self')
              | r => r
              end.

(** [for line_string in csv_file: if line_string.startswith(p): ...; break]:
    the first remaining line that starts with [p], if there is one, and
    the lines left in the file after the loop. *)
Fixpoint scan_line (p : string) (lines : list string) : option string * list string :=
  match lines with
  | [] => (None, [])
  | line_string :: rest =>
      if startswith line_string p then (Some line_string, rest)
      else scan_line p rest
  end.

(** [parse_family_driver_link]: the local [link] is bound only by the
    loop, so reading it after a loop that found no line raises
    [UnboundLocalError].  The file comes back as the loop left it. *)
Definition parse_family_driver_link (csv_file : IO) : result PyVal * IO :=
  let csv_file := seek0 csv_file in
  let (link, rest) := scan_line "link = " (io_rest csv_file) in
  let csv_file := mkIO (io_lines csv_file) rest in
  match link with
  | None => (Raise UnboundLocalError, csv_file)
  | Some link =>
      if py_truth (PStr link)
      then (literal_eval (strip link "link = "), csv_file)
      else (Ok PNone, csv_file)
  end.

(** [csv.DictReader(csv_file)]: the rows still to be read from the file.
    The first one gives [fieldnames]; the reader then yields one dict per
    further row that is not empty: missing cells are [None], surplus cells
    are collected under the key [None]. *)
Definition DictReader (csv_file : IO) : list (list string) :=
  csv_reader (io_rest csv_file).

Definition fieldnames (reader : list (list string)) : PyVal :=
  match reader with
  | [] => PNone
  | names :: _ => PList (map PStr names)
  end.

Definition row_dict (names row : list string) : items :=
  let d := dict_update [] (combine (map PStr names) (map PStr row)) in
  let lf := length names in
  let lr := length row in
  if lf <? lr then dict_set d PNone (PList (map PStr (skipn lf row)))
  else if lr <? lf
       then fold_left (fun d key => dict_set d (PStr key) PNone) (skipn lr names) d
       else d.

Definition reader_rows (reader : list (list string)) : list items :=
  match reader with
  | [] => []
  | names :: rows =>
      map (row_dict names)
          (List.filter (fun row => negb (Nat.eqb (length row) 0)) rows)
  end.

Definition LSC_NOT_LOADED : string :=
  "LSC will not be loaded. The advisory_metadata_list was either not a list or does not include 15 entries".

(** The body of the loop of [upload_lsc_from_csv_reader] after
    [total += 1], for one advisory: [true] when it reaches [loaded += 1],
    [false] when it ends with [continue].  The property [nvti] is read
    inside the [try]. *)
Definition upload_advisory (family general_metadata_dict : PyVal)
           (advisory_dict : items) : M bool :=
  let! is_correct := lift (_check_advisory_dict advisory_dict) in
  if negb is_correct then ret false
  else
    let! kv := lift (advisory_metadata_list (PDict advisory_dict)
                                            general_metadata_dict family) in
    let kb_key_string := fst kv in
    let advisory_metadata_list := snd kv in
    try_except
      (let! cache := nvti in
       let! cache' := lift (add_vt_to_cache cache kb_key_string
                                            advisory_metadata_list) in
       let! _ := set_nvti cache' in
       let! _ := emit (KbWrite kb_key_string advisory_metadata_list) in
       ret true)
      OspdOpenvasError
      (let! _ := emit (Log WARNING LSC_NOT_LOADED) in ret false).

(** The loop of [upload_lsc_from_csv_reader] with its two counters. *)
Fixpoint upload_loop (family general_metadata_dict : PyVal) (csv_reader : list items)
         (loaded total : nat) : M (nat * nat) :=
  match csv_reader with
  | [] => ret (loaded, total)
  | advisory_dict :: rest =>
      let total := total + 1 in
      let! done := upload_advisory family general_metadata_dict advisory_dict in
      if negb done then upload_loop family general_metadata_dict rest loaded total
      else upload_loop family general_metadata_dict rest (loaded + 1) total
  end.

(** [upload_lsc_from_csv_reader]. *)
Definition upload_lsc_from_csv_reader (file_name : string)
           (family general_metadata_dict : PyVal) (csv_reader : list items) : M bool :=
  let! counts := upload_loop family general_metadata_dict csv_reader 0 0 in
  let loaded := fst counts in
  let total := snd counts in
  let! _ := emit (Log DEBUG ("Loaded " +:+ pretty loaded +:+ "/" +:+ pretty total
                             +:+ " advisories from " +:+ file_name)) in
  ret (Nat.eqb loaded total).

(** The end of the body of the loop of [update_metadata]: the upload of
    the rows of one file and the warning when some row was not loaded. *)
Definition upload_and_report (csv_abs_path : string)
           (family general_metadata_dict : PyVal) (csv_reader : list items) : M unit :=
  let file_name := path_name csv_abs_path in
  let! ok := upload_lsc_from_csv_reader file_name family general_metadata_dict
                                        csv_reader in
  if negb ok then
    emit (Log WARNING ("Some advaisory was not loaded from " +:+ file_name))
  else ret tt.

(** The body of the loop of [update_metadata] for one file; it ends early
    where the source says [continue]. *)
Definition update_metadata_file (csv_abs_path : string) : M unit :=
  let! ok := is_checksum_correct csv_abs_path in
  if negb ok then
    emit (Log WARNING ("Checksum for " +:+ csv_abs_path +:+ " failed"))
  else
    let! _ := emit (Log DEBUG ("Checksum check for " +:+ csv_abs_path +:+ " successful")) in
    let! csv_file := open_text csv_abs_path in
    let (r, csv_file) := parse_family_driver_link csv_file in
    let! family_and_driver_dict := lift r in
    let! popped := lift (py_popitem family_and_driver_dict) in
    let family := fst (fst popped) in
    let general_metadata_dict := PDict [] in
    let (found, rest) := scan_line "{" (io_rest csv_file) in
    let csv_file := mkIO (io_lines csv_file) rest in
    let! general_metadata_dict :=
      match found with
      | Some line_string => lift (literal_eval line_string)
      | None => ret general_metadata_dict
      end in
    let reader := DictReader csv_file in
    let is_correct := _check_field_names_lsc (fieldnames reader) in
    if negb is_correct then
      emit (Log WARNING ("Field names check for " +:+ csv_abs_path +:+ " failed"))
    else
      upload_and_report csv_abs_path family general_metadata_dict (reader_rows reader).

(** [update_metadata]. *)
Definition update_metadata : M unit :=
  let! settings := openvas_setting in
  if negb (py_truth (settings_get settings "table_driven_lsc")) then ret tt
  else
    let! _ := emit (Log DEBUG "Starting the Notus metadata load up") in
    let! csv_abs_filepaths_list := _get_csv_filepaths in
    let! _ := for_each csv_abs_filepaths_list update_metadata_file in
    emit (Log DEBUG "Notus metadata load up finished.").

(** The loop of [get_family_driver_linkers] with the dict it fills. *)
Fixpoint linkers_loop (csv_abs_filepaths_list : list string)
         (family_driver_linkers : items) : M items :=
  match csv_abs_filepaths_list with
  | [] => ret family_driver_linkers
  | csv_abs_path :: rest =>
      let! ok := is_checksum_correct csv_abs_path in
      if negb ok then
        let! _ := emit (Log WARNING ("Checksum for " +:+ csv_abs_path +:+ " failed")) in
        linkers_loop rest family_driver_linkers
      else
        let! _ := emit (Log DEBUG ("Checksum check for " +:+ csv_abs_path
                                   +:+ " successful")) in
        let! csv_file := open_text csv_abs_path in
        let! dict_entry := lift (fst (parse_family_driver_link csv_file)) in
        if py_truth dict_entry then
          let! family_driver_linkers :=
            lift (py_dict_update family_driver_linkers dict_entry) in
          linkers_loop rest family_driver_linkers
        else linkers_loop rest family_driver_linkers
  end.

(** [get_family_driver_linkers]. *)
Definition get_family_driver_linkers : M items :=
  let! csv_abs_filepaths_list := _get_csv_filepaths in
  linkers_loop csv_abs_filepaths_list [].

End Handler.

(** ** An evaluator for a fragment of the literal syntax

    The theorems about the handler hold for every [Ast]; the examples need
    one that computes.  [MiniAst] evaluates the expressions made of names,
    decimal integers, quoted strings with the simple escapes, list, tuple
    and dict displays, [not], and unary and binary [+] and [-], the way
    [ast.literal_eval] of Python 3.8 and later does: a text that is not an
    expression raises [SyntaxError], an expression that is not a literal
    raises [ValueError].  A text outside the fragment (another operator, a
    keyword, a float, a set display, a string prefix, ...) is [Outside]. *)
Module MiniAst.

Inductive token : Type :=
| TName (s : string)
| TInt (digits : string)
| TStr (s : string)
| TSym (c : ascii).

Inductive outcome (A : Type) : Type :=
| Got (a : A)
| Invalid
| Outside.
Arguments Got {A} a.
Arguments Invalid {A}.
Arguments Outside {A}.

Definition obind {A B} (o : outcome A) (k : A -> outcome B) : outcome B :=
  match o with
  | Got a => k a
  | Invalid => Invalid
  | Outside => Outside
  end.

Notation "'let?' x ':=' o 'in' k" := (obind o (fun x => k))
  (at level 10, x pattern, o at level 100, k at level 200).

Definition is_digit (c : ascii) : bool := in_chars c "0123456789".
Definition is_alpha (c : ascii) : bool :=
  in_chars c "abcdefghijklmnopqrstuvwxyzABCDEFGHIJKLMNOPQRSTUVWXYZ_".
Definition is_blank (c : ascii) : bool :=
  Ascii.eqb c " " || Ascii.eqb c TAB || Ascii.eqb c LF || Ascii.eqb c CR.
Definition is_quote (c : ascii) : bool := Ascii.eqb c SQUOTE || Ascii.eqb c DQUOTE.

Inductive mode : Type :=
| Start
| InName (acc : string)
| InNum (acc : string)
| InStr (q : ascii) (acc : string)
| InEsc (q : ascii) (acc : string)
| AfterStr.

(** A character read between two tokens. *)
Definition begin (c : ascii) (toks : list token) : outcome (mode * list token) :=
  if is_blank c then Got (Start, toks)
  else if is_alpha c then Got (InName (String c ""), toks)
  else if is_digit c then Got (InNum (String c ""), toks)
  else if is_quote c then Got (InStr c "", toks)
  else if in_chars c "[](){},:+-" then Got (Start, TSym c :: toks)
  else Outside.

Definition escape (c : ascii) : option ascii :=
  if Ascii.eqb c BACKSLASH || is_quote c then Some c
  else if Ascii.eqb c "n" then Some LF
  else if Ascii.eqb c "t" then Some TAB
  else if Ascii.eqb c "r" then Some CR
  else None.

(** The tokens of a text, last first in [toks] while reading. *)
Fixpoint lex (m : mode) (toks : list token) (s : string) : outcome (list token) :=
  match s with
  | EmptyString =>
      match m with
      | Start | AfterStr => Got (rev toks)
      | InName acc => Got (rev (TName (String.rev acc) :: toks))
      | InNum acc => Got (rev (TInt (String.rev acc) :: toks))
      | InStr _ _ | InEsc _ _ => Invalid
      end
  | String c s' =>
      match m with
      | Start => let? mt := begin c toks in lex (fst mt) (snd mt) s'
      | AfterStr =>
          if is_quote c then Outside
          else let? mt := begin c toks in lex (fst mt) (snd mt) s'
      | InName acc =>
          if is_alpha c || is_digit c then lex (InName (String c acc)) toks s'
          else if is_quote c then Outside
          else let? mt := begin c (TName (String.rev acc) :: toks) in
               lex (fst mt) (snd mt) s'
      | InNum acc =>
          if is_digit c then lex (InNum (String c acc)) toks s'
          else if is_alpha c || Ascii.eqb c "." then Outside
          else let? mt := begin c (TInt (String.rev acc) :: toks) in
               lex (fst mt) (snd mt) s'
      | InStr q acc =>
          if Ascii.eqb c q then lex AfterStr (TStr (String.rev acc) :: toks) s'
          else if Ascii.eqb c BACKSLASH then lex (InEsc q acc) toks s'
          else if Ascii.eqb c LF then Invalid
          else if Ascii.eqb c zero then Outside
          else lex (InStr q (String c acc)) toks s'
      | InEsc q acc =>
          match escape c with
          | Some c' => lex (InStr q (String c' acc)) toks s'
          | None => Outside
          end
      end
  end.

Inductive expr : Type :=
| EName (s : string)
| EInt (z : Z)
| EStr (s : string)
| EList (l : list expr)
| ETuple (l : list expr)
| EDict (l : list (expr * expr))
| ENot (e : expr)
| EUnary (minus : bool) (e : expr)
| EBin (l r : expr).

Definition keywords : list string :=
  [ "and"; "as"; "assert"; "async"; "await"; "break"; "class"; "continue";
    "def"; "del"; "elif"; "else"; "except"; "finally"; "for"; "from";
    "global"; "if"; "import"; "in"; "is"; "lambda"; "nonlocal"; "or";
    "pass"; "raise"; "return"; "try"; "while"; "with"; "yield" ].

Definition digit_value (c : ascii) : Z := Z.of_N (N_of_ascii c) - 48.

Fixpoint digits_value (acc : Z) (s : string) : Z :=
  match s with
  | EmptyString => acc
  | String c s' => digits_value (10 * acc + digit_value c) s'
  end.

(** A decimal integer: a leading zero is allowed only in a zero. *)
Definition int_of_digits (s : string) : outcome Z :=
  let z := digits_value 0 s in
  match s with
  | String "0" (String _ _) => if (z =? 0)%Z then Got z else Invalid
  | _ => Got z
  end.

Definition sym (c : ascii) (t : token) : bool :=
  match t with
  | TSym c' => Ascii.eqb c c'
  | _ => false
  end.

(** A call or a subscript after an atom is outside the fragment. *)
Definition no_trailer (toks : list token) : bool :=
  match toks with
  | TSym c :: _ => negb (Ascii.eqb c "(" || Ascii.eqb c "[")
  | _ => true
  end.

Fixpoint strings (acc : string) (toks : list token) : string * list token :=
  match toks with
  | TStr s :: toks' => strings (acc +:+ s) toks'
  | _ => (acc, toks)
  end.

(** Recursive descent with fuel: [parse_expr] reads a test, [parse_arith]
    a sum, [parse_unary] a signed atom, [parse_items] the elements of a
    display up to the closing bracket [close], [parse_pairs] the items of
    a dict display. *)
Fixpoint parse_expr (n : nat) (toks : list token) : outcome (expr * list token) :=
  match n with
  | 0 => Outside
  | S n =>
      match toks with
      | TName "not" :: toks' =>
          let? r := parse_expr n toks' in Got (ENot (fst r), snd r)
      | _ => let? r := parse_unary n toks in parse_arith n (fst r) (snd r)
      end
  end
with parse_arith (n : nat) (left : expr) (toks : list token)
  : outcome (expr * list token) :=
  match n with
  | 0 => Outside
  | S n =>
      match toks with
      | TSym c :: toks' =>
          if Ascii.eqb c "+" || Ascii.eqb c "-"
          then let? r := parse_unary n toks' in parse_arith n (EBin left (fst r)) (snd r)
          else Got (left, toks)
      | _ => Got (left, toks)
      end
  end
with parse_unary (n : nat) (toks : list token) : outcome (expr * list token) :=
  match n with
  | 0 => Outside
  | S n =>
      match toks with
      | TSym c :: toks' =>
          if Ascii.eqb c "+" || Ascii.eqb c "-"
          then let? r := parse_unary n toks' in
               Got (EUnary (Ascii.eqb c "-") (fst r), snd r)
          else if Ascii.eqb c "["
          then let? r := parse_items n "]" toks' in
               if no_trailer (snd r) then Got (EList (fst r), snd r) else Outside
          else if Ascii.eqb c "("
          then match toks' with
               | TSym ")" :: toks'' =>
                   if no_trailer toks'' then Got (ETuple [], toks'') else Outside
               | _ =>
                   let? r := parse_expr n toks' in
                   match snd r with
                   | TSym ")" :: toks'' =>
                       if no_trailer toks'' then Got (fst r, toks'') else Outside
                   | TSym "," :: toks'' =>
                       let? r' := parse_items n ")" toks'' in
                       if no_trailer (snd r')
                       then Got (ETuple (fst r :: fst r'), snd r') else Outside
                   | _ => Invalid
                   end
               end
          else if Ascii.eqb c "{"
          then match toks' with
               | TSym "}" :: toks'' =>
                   if no_trailer toks'' then Got (EDict [], toks'') else Outside
               | _ =>
                   let? r := parse_pairs n toks' in
                   if no_trailer (snd r) then Got (EDict (fst r), snd r) else Outside
               end
          else Invalid
      | TName s :: toks' =>
          if String.eqb s "not" then Invalid
          else if existsb (String.eqb s) keywords then Outside
          else if no_trailer toks' then Got (EName s, toks') else Outside
      | TInt d :: toks' =>
          let? z := int_of_digits d in
          if no_trailer toks' then Got (EInt z, toks') else Outside
      | TStr s :: toks' =>
          let r := strings s toks' in
          if no_trailer (snd r) then Got (EStr (fst r), snd r) else Outside
      | [] => Invalid
      end
  end
with parse_items (n : nat) (close : ascii) (toks : list token)
  : outcome (list expr * list token) :=
  match n with
  | 0 => Outside
  | S n =>
      match toks with
      | TSym c :: toks' =>
          if Ascii.eqb c close then Got ([], toks')
          else let? r := parse_expr n toks in
               match snd r with
               | TSym c' :: toks'' =>
                   if Ascii.eqb c' close then Got ([fst r], toks'')
                   else if Ascii.eqb c' ","
                   then let? r' := parse_items n close toks'' in
                        Got (fst r :: fst r', snd r')
                   else Invalid
               | _ => Invalid
               end
      | _ => let? r := parse_expr n toks in
             match snd r with
             | TSym c' :: toks'' =>
                 if Ascii.eqb c' close then Got ([fst r], toks'')
                 else if Ascii.eqb c' ","
                 then let? r' := parse_items n close toks'' in
                      Got (fst r :: fst r', snd r')
                 else Invalid
             | _ => Invalid
             end
      end
  end
with parse_pairs (n : nat) (toks : list token)
  : outcome (list (expr * expr) * list token) :=
  match n with
  | 0 => Outside
  | S n =>
      match toks with
      | TSym "}" :: toks' => Got ([], toks')
      | _ =>
          let? k := parse_expr n toks in
          match snd k with
          | TSym ":" :: toks' =>
              let? v := parse_expr n toks' in
              match snd v with
              | TSym "}" :: toks'' => Got ([(fst k, fst v)], toks'')
              | TSym "," :: toks'' =>
                  let? r := parse_pairs n toks'' in
                  Got ((fst k, fst v) :: fst r, snd r)
              | _ => Invalid
              end
          | TSym "," :: _ | TSym "}" :: _ => Outside
          | _ => Invalid
          end
      end
  end.

(** A whole text: one expression, or several separated by commas (a
    tuple without parentheses). *)
Definition parse (toks : list token) : outcome expr :=
  let n := 10 * (length toks + 1) in
  let? r := parse_expr n toks in
  match snd r with
  | [] => Got (fst r)
  | TSym "," :: toks' =>
      match toks' with
      | [] => Got (ETuple [fst r])
      | _ => Outside
      end
  | _ => Invalid
  end.

(** [_convert] of [ast.literal_eval]. *)
Fixpoint convert (e : expr) : result PyVal :=
  match e with
  | EStr s => Ok (PStr s)
  | EInt z => Ok (PInt z)
  | EName s =>
      if String.eqb s "None" then Ok PNone
      else if String.eqb s "True" then Ok (PBool true)
      else if String.eqb s "False" then Ok (PBool false)
      else Raise ValueError
  | EList l =>
      let* vs := (fix go (l : list expr) : result (list PyVal) :=
                    match l with
                    | [] => Ok []
                    | x :: l' => let* v := convert x in
                                 let* vs := go l' in Ok (v :: vs)
                    end) l in
      Ok (PList vs)
  | ETuple l =>
      let* vs := (fix go (l : list expr) : result (list PyVal) :=
                    match l with
                    | [] => Ok []
                    | x :: l' => let* v := convert x in
                                 let* vs := go l' in Ok (v :: vs)
                    end) l in
      Ok (PTuple vs)
  | EDict kvs =>
      let* d := (fix go (kvs : list (expr * expr)) (d : items) : result items :=
                   match kvs with
                   | [] => Ok d
                   | (k, v) :: kvs' =>
                       let* k' := convert k in
                       let* v' := convert v in
                       if py_hashable k' then go kvs' (dict_set d k' v')
                       else Raise TypeError
                   end) kvs [] in
      Ok (PDict d)
  | ENot _ => Raise ValueError
  | EUnary minus (EInt z) => Ok (PInt (if minus then - z else z)%Z)
  | EUnary _ _ => Raise ValueError
  | EBin _ _ => Raise ValueError
  end.

(** The evaluation of a text of the fragment, if it is one. *)
Definition eval (s : string) : outcome (result PyVal) :=
  match lex Start [] s with
  | Got toks =>
      match parse toks with
      | Got e => Got (convert e)
      | Invalid => Got (Raise SyntaxError)
      | Outside => Outside
      end
  | Invalid => Got (Raise SyntaxError)
  | Outside => Outside
  end.

(** As an [Ast]: a text outside the fragment is not modelled and is
    given the answer [SyntaxError]; every example of this file stays
    inside the fragment (see [in_fragment]). *)
Definition literal_eval (s : string) : result PyVal :=
  match eval s with
  | Got r => r
  | _ => Raise SyntaxError
  end.

Definition in_fragment (s : string) : bool :=
  match eval s with
  | Got _ => true
  | _ => false
  end.

End MiniAst.

#[export] Instance mini_ast : Ast := {| literal_eval := MiniAst.literal_eval |}.

(** ** A CSV reader, a KB and a digest for the examples *)

(** [csv.reader] with the default dialect (comma, double quote, doubled
    quote inside a quoted cell), as the state machine of the [csv] module
    reads the characters of each line and then the end of the line. *)
Module MiniCsv.

Inductive mode : Type :=
| StartRecord | StartField | InField | InQuoted | QuoteInQuoted | EatCrnl.

Record state : Type := mkState {
  st_mode : mode;
  st_field : string;
  st_fields : list string }.

Definition add (c : ascii) (m : mode) (s : state) : state :=
  mkState m (String c (st_field s)) (st_fields s).
Definition save (m : mode) (s : state) : state :=
  mkState m "" (String.rev (st_field s) :: st_fields s).
Definition goto (m : mode) (s : state) : state :=
  mkState m (st_field s) (st_fields s).

Definition is_eol (c : ascii) : bool := Ascii.eqb c LF || Ascii.eqb c CR.

Definition start_field (c : ascii) (s : state) : state :=
  if is_eol c then save EatCrnl s
  else if Ascii.eqb c DQUOTE then goto InQuoted s
  else if Ascii.eqb c "," then save StartField s
  else add c InField s.

Definition step (s : state) (c : ascii) : state :=
  match st_mode s with
  | StartRecord => if is_eol c then goto EatCrnl s else start_field c s
  | StartField => start_field c s
  | InField =>
      if is_eol c then save EatCrnl s
      else if Ascii.eqb c "," then save StartField s
      else add c InField s
  | InQuoted =>
      if Ascii.eqb c DQUOTE then goto QuoteInQuoted s else add c InQuoted s
  | QuoteInQuoted =>
      if Ascii.eqb c DQUOTE then add c InQuoted s
      else if Ascii.eqb c "," then save StartField s
      else if is_eol c then save EatCrnl s
      else add c InField s
  | EatCrnl => s
  end.

(** The end of a line: the record is complete unless a quoted cell is
    still open. *)
Definition end_of_line (s : state) : state :=
  match st_mode s with
  | StartRecord | EatCrnl => goto StartRecord s
  | StartField | InField | QuoteInQuoted => save StartRecord s
  | InQuoted => s
  end.

Fixpoint feed (s : state) (line : string) : state :=
  match line with
  | EmptyString => end_of_line s
  | String c line' => feed (step s c) line'
  end.

Definition fresh : state := mkState StartRecord "" [].

Fixpoint rows (s : state) (lines : list string) : list (list string) :=
  match lines with
  | [] =>
      match st_mode s with
      | InQuoted => [rev (String.rev (st_field s) :: st_fields s)]
      | _ => []
      end
  | line :: lines' =>
      let s' := feed s line in
      match st_mode s' with
      | StartRecord => rev (st_fields s') :: rows fresh lines'
      | _ => rows s' lines'
      end
  end.

Definition reader (lines : list string) : list (list string) := rows fresh lines.

End MiniCsv.

#[export] Instance mini_csv : Csv := {| csv_reader := MiniCsv.reader |}.

(** The Redis KB as far as the handler uses it: the recorded checksum of
    each file and the metadata list stored under each key. *)
Record KB : Type := mkKB {
  kb_checksums : gmap string string;
  kb_nvts : gmap string (list PyVal) }.

(** Modelled from the spec: [NVTICache.get_file_checksum] and
    [NVTICache.add_vt_to_cache] are not in the source file.  The expected
    digest of a file is a string or absent; a write overwrites the entry of
    its key and is rejected only if the list does not have exactly 15
    entries. *)
#[export] Instance kb_cache : NVTICache KB := {|
  get_file_checksum kb path := kb_checksums kb !! path;
  add_vt_to_cache kb vt_id vt :=
    if Nat.eqb (length vt) 15
    then Ok (mkKB (kb_checksums kb) (<[vt_id := vt]> (kb_nvts kb)))
    else Raise OspdOpenvasError |}.

(** A stand-in for SHA-256 in the examples, where only the equality of two
    digests matters: the bytes themselves, written in hexadecimal. *)
Definition hex_of_byte (b : Byte.byte) : string :=
  let n := N_of_ascii (ascii_of_byte b) in
  String (hex_digit (n / 16)) (String (hex_digit (n mod 16)) "").

#[export] Instance hex_digest : Hashlib :=
  {| sha256_hexdigest_of bs := String.concat "" (map hex_of_byte bs) |}.

(** ** Example files and environments *)

Definition unlines (ls : list string) : string :=
  String.concat "" (map (fun l => l +:+ nl) ls).

Definition quoted (s : string) : string := String DQUOTE (s +:+ String DQUOTE "").

Definition header_row : string := String.concat "," EXPECTED_FIELD_NAMES_LIST.

Definition link_line : string := "link = {'Family A': '1.3.6.1.4.1.25623.1.0.9'}".

Definition general_line : string :=
  "{'VULDETECT': 'v', 'SOLUTION': 's', 'SOLUTION_TYPE': 'VendorFix', 'QOD_TYPE': 'package'}".

(** A row of 17 cells with the given title, source packages and CVE list. *)
Definition csv_row (oid title source_pkgs cve_list : string) : string :=
  String.concat ","
    [ oid; title; "1600000000"; "1600000001"; source_pkgs; "ADV-1"; "NVD";
      "1600000002"; "AV:N/AC:L"; "http://x"; "desc"; "insight"; "affected";
      cve_list; "{}"; quoted "['http://y', 'http://z']"; "adv1.notus" ].

Definition good_row : string :=
  csv_row "1.3.6.1.4.1.25623.1.1.1" "Title" "['pkg']" (quoted "['CVE-2020-1', 'CVE-2020-2']").

(** A well-formed file: licence line, link line, general metadata, field
    names, one valid row and one row without a title. *)
Definition good_csv : string :=
  unlines [ "# Copyright"; link_line; general_line; header_row; good_row;
            csv_row "1.3.6.1.4.1.25623.1.1.2" "" "['pkg']" "[]" ].

(** A file like [good_csv] but with one valid row only. *)
Definition small_csv : string :=
  unlines [ "# Copyright"; "link = {'Family B': '1.3.6.1.4.1.25623.1.0.8'}";
            general_line; header_row; good_row ].

(** A file without a link line. *)
Definition no_link_csv : string :=
  unlines [ "# Copyright"; general_line; header_row; good_row ].

Definition empty_kb : KB := mkKB ∅ ∅.

Definition fresh_handler : @Handler KB := mkHandler None None None [].

Definition settings_of (table_driven_lsc : Z) : gmap string PyVal :=
  <["plugins_folder" := PStr "/feed"]>
    (<["nasl_no_signature_check" := PInt 1]>
       (<["table_driven_lsc" := PInt table_driven_lsc]> ∅)).

Definition world_of (table_driven_lsc : Z) (fs : list (string * string)) : @World KB :=
  mkWorld (settings_of table_driven_lsc) ∅ (Some empty_kb)
          (map (fun pc => (fst pc, list_byte_of_string (snd pc))) fs).

(** A text file just opened. *)
Definition text_io (content : string) : IO :=
  mkIO (readlines content) (readlines content).

(** * Statements: the notions that the properties speak of *)

Section Views.
Context {C : Type} `{!NVTICache C} `{!Ast} `{!Hashlib}.
Variable W : @World C.

(** The settings a handler works with: the dict it has cached, or the one
    the scanner reports. *)
Definition settings_of_handler (self : @Handler C) : gmap string PyVal :=
  default (get_settings W) (_openvas_settings_dict self).

(** The KB a handler reaches: the one it holds, or the one [MainDB()]
    connects to. *)
Definition kb_of_handler (self : @Handler C) : option C :=
  match _nvti self with
  | Some c => Some c
  | None => MainDB W
  end.

(** What [is_checksum_correct] returns for a file, as far as the settings,
    the file and the KB decide it. *)
Definition checksum_outcome (self : @Handler C) (path : string) : option bool :=
  if py_truth (settings_get (settings_of_handler self) "nasl_no_signature_check")
  then Some true
  else match lookup_file (files W) path, kb_of_handler self with
       | Some content, Some cache =>
           Some (bool_decide (get_file_checksum cache path
                              = Some (sha256_hexdigest_of content)))
       | _, _ => None
       end.


(** Two handlers that work with the same settings and the same KB. *)
Definition same_view (self self' : @Handler C) : Prop :=
  settings_of_handler self' = settings_of_handler self
  /\ kb_of_handler self' = kb_of_handler self.



Section Loaded.
Variables family general_metadata_dict : PyVal.



End Loaded.

End Views.

(** What [_check_advisory_dict] asks of one item of the record. *)
Definition item_accepted `{!Ast} (kv : PyVal * PyVal) : Prop :=
  py_truth (snd kv) = true
  /\ (py_eqb (fst kv) (PStr "SOURCE_PKGS") = true ->
      exists (v : PyVal) (n : nat),
        py_literal_eval (snd kv) = Ok v /\ py_len v = Ok (S n)).

(** A cell encodes a list that is not empty. *)
Definition encodes_nonempty_list `{!Ast} (value : PyVal) : Prop :=
  exists (x : PyVal) (l : list PyVal), py_literal_eval value = Ok (PList (x :: l)).

(** [isinstance(v, str)]. *)
Definition is_str (v : PyVal) : bool :=
  match v with
  | PStr _ => true
  | _ => false
  end.

(** The fields of a record that the upload reads. *)
Definition UPLOADED_FIELDS : list string :=
  [ "OID"; "FILENAME"; "SEVERITY_ORIGIN"; "SEVERITY_DATE"; "SEVERITY_VECTOR";
    "LAST_MODIFICATION"; "CREATION_DATE"; "DESCRIPTION"; "INSIGHT"; "AFFECTED";
    "CVE_LIST"; "ADVISORY_XREF"; "XREFS"; "TITLE" ].

Definition GENERAL_FIELDS : list string :=
  [ "VULDETECT"; "SOLUTION"; "SOLUTION_TYPE"; "QOD_TYPE" ].

(** ** Example records and paths *)

(** A record of the 17 fields with the given list cells. *)
Definition advisory_with (source_pkgs cve_list xrefs : string) : items :=
  [ (PStr "OID", PStr "1.3.6.1.4.1.25623.1.1.1"); (PStr "TITLE", PStr "Title");
    (PStr "CREATION_DATE", PStr "1600000000");
    (PStr "LAST_MODIFICATION", PStr "1600000001");
    (PStr "SOURCE_PKGS", PStr source_pkgs); (PStr "ADVISORY_ID", PStr "ADV-1");
    (PStr "SEVERITY_ORIGIN", PStr "NVD"); (PStr "SEVERITY_DATE", PStr "1600000002");
    (PStr "SEVERITY_VECTOR", PStr "AV:N/AC:L"); (PStr "ADVISORY_XREF", PStr "http://x");
    (PStr "DESCRIPTION", PStr "desc"); (PStr "INSIGHT", PStr "insight");
    (PStr "AFFECTED", PStr "affected"); (PStr "CVE_LIST", PStr cve_list);
    (PStr "BINARY_PACKAGES_FOR_RELEASES", PStr "{}"); (PStr "XREFS", PStr xrefs);
    (PStr "FILENAME", PStr "adv1.notus") ].

Definition general_metadata : PyVal :=
  PDict [ (PStr "VULDETECT", PStr "v"); (PStr "SOLUTION", PStr "s");
          (PStr "SOLUTION_TYPE", PStr "VendorFix"); (PStr "QOD_TYPE", PStr "package") ].

Definition example_cell (key : string) : PyVal :=
  default PNone
    (dict_get (advisory_with "['pkg']" "['CVE-2020-1', 'CVE-2020-2']"
                             "['http://y', 'http://z']") (PStr key)).

Definition example_meta (key : string) : PyVal :=
  match py_getitem general_metadata key with
  | Ok v => v
  | Raise _ => PNone
  end.

Definition GOOD : string := "/feed/notus_metadata/good.csv".
Definition SMALL : string := "/feed/notus_metadata/small.csv".
Definition NO_LINK : string := "/feed/notus_metadata/no_link.csv".

Definition is_kb_write (e : event) : bool :=
  match e with
  | KbWrite _ _ => true
  | _ => false
  end.


(** ** What a run leaves behind *)

(** A KB write as the upload makes them: a key that starts with [nvt:] and
    a list of 15 entries.  Any other event qualifies. *)
Definition well_formed_event (e : event) : Prop :=
  match e with
  | KbWrite vt_id vt => startswith vt_id "nvt:" = true /\ length vt = 15
  | _ => True
  end.

Section Frames.
Context {C : Type}.
Variable W : @World C.

(** Between [self] and [self'] events were only added to the trace, and
    each of them satisfies [P]. *)
Definition extends_with (P : event -> Prop) (self self' : @Handler C) : Prop :=
  exists evs, trace self' = trace self ++ evs /\ Forall P evs.

(** [self'] comes from [self] by reading only: no KB write was added to the
    trace and the KB that the handler reaches is the same. *)
Definition read_only (self self' : @Handler C) : Prop :=
  extends_with (fun e => is_kb_write e = false) self self'
  /\ kb_of_handler W self' = kb_of_handler W self.

End Frames.

(** The record line of [upload_lsc_from_csv_reader]. *)
Definition loaded_message (loaded total : nat) (file_name : string) : string :=
  "Loaded " +:+ pretty loaded +:+ "/" +:+ pretty total +:+ " advisories from " +:+ file_name.

(** The records of [update_metadata] about one file. *)
Definition checksum_failed (csv_abs_path : string) : event :=
  Log WARNING ("Checksum for " +:+ csv_abs_path +:+ " failed").


(** A file whose checksum is checked and does not match: the scanner
    settings switch the check on and the KB has no digest for any file. *)
Definition checked_world (fs : list (string * string)) : @World KB :=
  mkWorld (<["nasl_no_signature_check" := PInt 0]> (settings_of 1)) ∅ (Some empty_kb)
          (map (fun pc => (fst pc, list_byte_of_string (snd pc))) fs).


(** * Properties *)

(** ** Reading in blocks *)

Lemma read_blocks_concat (size : nat) (bs : list Byte.byte) :
  0 < size -> concat (read_blocks size bs) = bs.
Proof.
  intros Hsize.
  funelim (read_blocks size bs).
  - destruct size as [|n]; [lia|].
    destruct rest as [|r rest]; [reflexivity|].
    match goal with E : firstn _ _ = [] |- _ => simpl in E; discriminate E end.
  - simpl.
    match goal with IH : _ -> concat _ = _ |- _ => rewrite (IH Hsize) end.
    match goal with E : firstn _ _ = _ :: _ |- _ =>
      change (b :: blk ++ skipn size rest) with ((b :: blk) ++ skipn size rest);
      rewrite <- E end.
    apply firstn_skipn.
Qed.

Lemma sha256_update_blocks (blocks : list (list Byte.byte)) (h : list Byte.byte) :
  fold_left sha256_update blocks h = h ++ concat blocks.
Proof.
  revert h. induction blocks as [|b blocks IH]; intros h; simpl.
  - symmetry. apply app_nil_r.
  - rewrite IH. unfold sha256_update. symmetry. apply app_assoc.
Qed.

(** Feeding the hash object the blocks of 4096 bytes of a file digests the
    file. *)
Lemma sha256_stream (content : list Byte.byte) :
  fold_left sha256_update (read_blocks 4096 content) sha256 = content.
Proof.
  rewrite sha256_update_blocks. unfold sha256. simpl.
  apply read_blocks_concat. lia.
Qed.

Section HandlerFacts.
Context {C : Type} `{!NVTICache C} `{!Ast} `{!Hashlib} `{!Csv}.
Variable W : @World C.

Lemma openvas_setting_run (self : @Handler C) :
  openvas_setting W self
  = (Ok (settings_of_handler W self),
     mkHandler (_nvti self) (_metadata_path self)
               (Some (settings_of_handler W self)) (trace self)).
Proof.
  unfold openvas_setting, settings_of_handler.
  destruct self as [n p [d|] t]; reflexivity.
Qed.

End HandlerFacts.

(** C9: the metadata directory is the explicit path given to the handler if
    there is one; otherwise the [plugins_folder] setting, when it is set and
    not empty, followed by [/notus_metadata/]; otherwise, when the variable
    [INSTALL_PREFIX] is set and not empty, its value followed by
    [/var/lib/openvas/plugins/notus_metadata/]; otherwise
    [/opt/greenbone/feed/plugins/notus_metadata/]. *)
Theorem metadata_path_precedence {C : Type} (W : @World C) (self : @Handler C) :
  let plugins_folder := settings_get (settings_of_handler W self) "plugins_folder" in
  fst (metadata_path W self)
  = Ok match _metadata_path self with
       | Some explicit_path => explicit_path
       | None =>
           if py_truth plugins_folder
           then py_str plugins_folder +:+ "/notus_metadata/"
           else match environ W !! "INSTALL_PREFIX" with
                | Some (String c prefix) =>
                    String c prefix +:+ "/var/lib/openvas/plugins/notus_metadata/"
                | _ => "/opt/greenbone/feed/plugins/notus_metadata/"
                end
       end.
Proof.
  intros plugins_folder. subst plugins_folder.
  unfold metadata_path.
  destruct (_metadata_path self) as [p|] eqn:Hp; [reflexivity|].
  unfold bind. rewrite openvas_setting_run.
  destruct (py_truth (settings_get (settings_of_handler W self) "plugins_folder")) eqn:Hpf.
  - reflexivity.
  - destruct (environ W !! "INSTALL_PREFIX") as [[|c prefix]|]; reflexivity.
Qed.

Section ChecksumFacts.
Context {C : Type} `{!NVTICache C} `{!Hashlib}.
Variable W : @World C.

Lemma nvti_run (self : @Handler C) (cache : C) :
  kb_of_handler W self = Some cache ->
  nvti W self
  = (Ok cache, mkHandler (Some cache) (_metadata_path self)
                         (_openvas_settings_dict self) (trace self)).
Proof.
  unfold kb_of_handler, nvti. intros Hkb.
  destruct self as [[c|] p d t]; simpl in *.
  - injection Hkb as ->. reflexivity.
  - rewrite Hkb. reflexivity.
Qed.

Lemma nvti_unreachable (self : @Handler C) :
  kb_of_handler W self = None -> nvti W self = (Raise OspdOpenvasError, self).
Proof.
  unfold kb_of_handler, nvti. intros Hkb.
  destruct (_nvti self); [discriminate|]. rewrite Hkb. reflexivity.
Qed.

(** With the signature check switched off the file is not opened and the
    KB is not asked. *)
Lemma is_checksum_correct_disabled (self : @Handler C) (file_abs_path : string) :
  py_truth (settings_get (settings_of_handler W self) "nasl_no_signature_check") = true ->
  is_checksum_correct W file_abs_path self
  = (Ok true, mkHandler (_nvti self) (_metadata_path self)
                        (Some (settings_of_handler W self)) (trace self)).
Proof.
  intros Hoff. unfold is_checksum_correct, bind.
  rewrite openvas_setting_run, Hoff. reflexivity.
Qed.

Lemma is_checksum_correct_enabled (self : @Handler C) (file_abs_path : string)
      (content : list Byte.byte) (cache : C) :
  py_truth (settings_get (settings_of_handler W self) "nasl_no_signature_check") = false ->
  lookup_file (files W) file_abs_path = Some content ->
  kb_of_handler W self = Some cache ->
  is_checksum_correct W file_abs_path self
  = (Ok (bool_decide (get_file_checksum cache file_abs_path
                      = Some (sha256_hexdigest_of content))),
     mkHandler (Some cache) (_metadata_path self) (Some (settings_of_handler W self))
               (trace self ++ [FileOpen file_abs_path "rb"; KbChecksum file_abs_path])).
Proof.
  intros Hon Hfile Hkb. unfold is_checksum_correct, bind.
  rewrite openvas_setting_run, Hon. simpl.
  unfold open_file, bind, emit. simpl. rewrite Hfile. unfold ret at 1.
  rewrite sha256_stream.
  erewrite nvti_run by (unfold kb_of_handler in *; simpl; exact Hkb).
  simpl. unfold hexdigest, ret.
  rewrite <- app_assoc. simpl.
  destruct (decide (get_file_checksum cache file_abs_path
                    = Some (sha256_hexdigest_of content))) as [Heq|Hne].
  - rewrite (bool_decide_eq_true_2 _ Heq).
    rewrite bool_decide_eq_true_2 by (symmetry; exact Heq). reflexivity.
  - rewrite (bool_decide_eq_false_2 _ Hne).
    rewrite bool_decide_eq_false_2 by (intros Heq; apply Hne; symmetry; exact Heq).
    reflexivity.
Qed.

End ChecksumFacts.

(** C5: with the signature check disabled by the settings,
    [is_checksum_correct] returns true whatever the file and the KB hold;
    otherwise, for a file that can be read and a KB that can be reached, it
    returns true exactly when the digest recorded in the KB for the file is
    the SHA-256 hex digest of the file's bytes, read in blocks of 4096 bytes;
    a file with no recorded digest gives false, not an exception. *)
Theorem is_checksum_correct_spec {C : Type} `{!NVTICache C} `{!Hashlib}
        (W : @World C) (self : @Handler C) (file_abs_path : string) :
  let no_signature_check :=
    settings_get (settings_of_handler W self) "nasl_no_signature_check" in
  (py_truth no_signature_check = true ->
   fst (is_checksum_correct W file_abs_path self) = Ok true
   /\ trace (snd (is_checksum_correct W file_abs_path self)) = trace self)
  /\ (py_truth no_signature_check = false ->
      forall (content : list Byte.byte) (cache : C),
        lookup_file (files W) file_abs_path = Some content ->
        kb_of_handler W self = Some cache ->
        (fst (is_checksum_correct W file_abs_path self) = Ok true
         <-> get_file_checksum cache file_abs_path
             = Some (hexdigest (fold_left sha256_update (read_blocks 4096 content) sha256)))
        /\ (fst (is_checksum_correct W file_abs_path self) = Ok false
            <-> get_file_checksum cache file_abs_path
                <> Some (sha256_hexdigest_of content))
        /\ (get_file_checksum cache file_abs_path = None ->
            fst (is_checksum_correct W file_abs_path self) = Ok false)).
Proof.
  intros no_signature_check. subst no_signature_check. split.
  - intros Hoff. rewrite is_checksum_correct_disabled by assumption.
    split; reflexivity.
  - intros Hon content cache Hfile Hkb.
    rewrite (is_checksum_correct_enabled W self file_abs_path content cache Hon Hfile Hkb).
    rewrite sha256_stream. unfold hexdigest. simpl.
    destruct (decide (get_file_checksum cache file_abs_path
                      = Some (sha256_hexdigest_of content))) as [Heq|Hne].
    + rewrite (bool_decide_eq_true_2 _ Heq). repeat split; try tauto; try congruence.
    + rewrite (bool_decide_eq_false_2 _ Hne). repeat split; try tauto; try congruence.
Qed.

(** ** The validator *)

Lemma check_advisory_dict_cons `{!Ast} (key value : PyVal) (rest : items) :
  _check_advisory_dict ((key, value) :: rest) = Ok true
  <-> item_accepted (key, value) /\ _check_advisory_dict rest = Ok true.
Proof.
  unfold item_accepted. simpl.
  destruct (py_truth value) eqn:Htruth; simpl.
  2: { split; [discriminate | intros [[Hf _] _]; discriminate]. }
  destruct (py_eqb key (PStr "SOURCE_PKGS")) eqn:Hkey.
  - destruct (py_literal_eval value) as [v|e] eqn:Hev; simpl.
    + destruct (py_len v) as [n|e] eqn:Hlen; simpl.
      * destruct n as [|n]; simpl.
        -- split; [discriminate|].
           intros [[_ Hsrc] _]. destruct (Hsrc eq_refl) as (v' & n' & Hv' & Hn').
           congruence.
        -- split; [|tauto]. intros Hrest. repeat split; eauto.
      * split.
        -- destruct e; discriminate.
        -- intros [[_ Hsrc] _]. destruct (Hsrc eq_refl) as (v' & n' & Hv' & Hn').
           congruence.
    + split.
      * destruct e; discriminate.
      * intros [[_ Hsrc] _]. destruct (Hsrc eq_refl) as (v' & n' & Hv' & Hn').
        congruence.
  - split; [|tauto]. intros Hrest. repeat split; [discriminate | assumption].
Qed.

(** The validator never accepts a record one of whose values is falsy. *)
Lemma check_advisory_dict_falsy `{!Ast} (advisory_dict : items) (key value : PyVal) :
  In (key, value) advisory_dict -> py_truth value = false ->
  _check_advisory_dict advisory_dict <> Ok true.
Proof.
  induction advisory_dict as [|[k v] rest IH]; intros Hin Hfalsy; [contradiction|].
  rewrite check_advisory_dict_cons. intros [[Hacc _] Hrest]. simpl in Hacc.
  destruct Hin as [Heq|Hin].
  - injection Heq as -> ->. congruence.
  - exact (IH Hin Hfalsy Hrest).
Qed.

(** The three records of the specification: a one-element list is accepted,
    an empty list and a text that is no literal are refused. *)
Example check_advisory_dict_examples :
  _check_advisory_dict (advisory_with "['a']" "['CVE-2020-1']" "['http://y']") = Ok true
  /\ _check_advisory_dict (advisory_with "[]" "['CVE-2020-1']" "['http://y']") = Ok false
  /\ _check_advisory_dict (advisory_with "not-a-list" "['CVE-2020-1']" "['http://y']")
     = Ok false
  /\ MiniAst.in_fragment "['a']" && MiniAst.in_fragment "[]"
     && MiniAst.in_fragment "not-a-list" = true.
Proof. repeat split; vm_compute; reflexivity. Qed.

(** C4: on a record whose [SOURCE_PKGS] cell is a list literal cut short,
    [_check_advisory_dict] raises [SyntaxError] instead of returning false
    (only [ValueError] and [TypeError] are caught); and it accepts a record
    whose [SOURCE_PKGS] cell is a string literal, which is no list. *)
Theorem check_advisory_dict_source_pkgs_slips :
  _check_advisory_dict (advisory_with "['a'" "['CVE-2020-1']" "['http://y']")
  = Raise SyntaxError
  /\ MiniAst.eval "['a'" = MiniAst.Got (Raise SyntaxError)
  /\ _check_advisory_dict (advisory_with "'abc'" "['CVE-2020-1']" "['http://y']") = Ok true
  /\ MiniAst.eval "'abc'" = MiniAst.Got (Ok (PStr "abc")).
Proof. repeat split; vm_compute; reflexivity. Qed.

(** C2, as amended: the validator accepts a record exactly when every value
    is truthy and every [SOURCE_PKGS] cell evaluates, as a literal, to a
    value whose length is not zero.  The cells [CVE_LIST] and [XREFS] are
    only asked to be truthy. *)
Theorem check_advisory_dict_accepts_iff `{!Ast} (advisory_dict : items) :
  _check_advisory_dict advisory_dict = Ok true <-> Forall item_accepted advisory_dict.
Proof.
  induction advisory_dict as [|[key value] rest IH].
  - simpl. split; [constructor | reflexivity].
  - rewrite check_advisory_dict_cons, IH. split.
    + intros [Hitem Hrest]. constructor; assumption.
    + intros Hall. inversion Hall; subst. split; assumption.
Qed.

(** C2, the counterexample: a record whose [CVE_LIST] and [XREFS] cells
    encode the empty list is accepted, so acceptance does not make the three
    list cells encode lists that are not empty; and an accepted record can
    hold a [CVE_LIST] cell that is no literal, on which the evaluation in
    the upload raises. *)
Lemma accepted_record_with_empty_lists :
  ~ (forall advisory_dict : items,
        _check_advisory_dict advisory_dict = Ok true ->
        forall (key : string) (value : PyVal),
          In key ["SOURCE_PKGS"; "CVE_LIST"; "XREFS"] ->
          dict_get advisory_dict (PStr key) = Some value ->
          encodes_nonempty_list value)
  /\ _check_advisory_dict (advisory_with "['pkg']" "NOCVE" "['http://y']") = Ok true
  /\ advisory_metadata_list (PDict (advisory_with "['pkg']" "NOCVE" "['http://y']"))
                            general_metadata (PStr "Family A")
     = Raise ValueError.
Proof.
  split; [|split; vm_compute; reflexivity].
  intros Hclaim.
  destruct (Hclaim (advisory_with "['pkg']" "[]" "[]") eq_refl "CVE_LIST" (PStr "[]"))
    as (x & l & Hev).
  - simpl. tauto.
  - reflexivity.
  - vm_compute in Hev. discriminate Hev.
Qed.

(** ** The metadata list of one advisory *)

Lemma format_urls (urls : list PyVal) (acc : list string) :
  fold_left (fun acc url_string => acc ++ ["URL:" +:+ py_str url_string]) urls acc
  = acc ++ map (fun url_string => "URL:" +:+ py_str url_string) urls.
Proof.
  revert acc. induction urls as [|u urls IH]; intros acc; simpl.
  - symmetry. apply app_nil_r.
  - rewrite IH, <- app_assoc. reflexivity.
Qed.

(** [_format_xrefs]: the advisory link and every link of the list, each
    after [URL:], separated by a comma and a space. *)
Lemma format_xrefs_spec `{!Ast} (advisory_xref_string xrefs_list : PyVal)
      (urls : list PyVal) :
  py_iter xrefs_list = Ok urls ->
  _format_xrefs advisory_xref_string xrefs_list
  = Ok (String.concat ", " (map (fun url_string => "URL:" +:+ py_str url_string)
                                (advisory_xref_string :: urls))).
Proof.
  intros Hiter. unfold _format_xrefs. rewrite Hiter. simpl.
  rewrite format_urls. reflexivity.
Qed.

Example format_xrefs_example :
  _format_xrefs (PStr "http://x") (PList [PStr "http://y"; PStr "http://z"])
  = Ok "URL:http://x, URL:http://y, URL:http://z".
Proof. reflexivity. Qed.

(** Whenever the upload builds a metadata list, the list has 15 entries. *)
Lemma advisory_metadata_list_length `{!Ast}
      (advisory_dict general_metadata_dict family : PyVal)
      (kb_key_string : string) (l : list PyVal) :
  advisory_metadata_list advisory_dict general_metadata_dict family
  = Ok (kb_key_string, l) ->
  length l = 15.
Proof.
  unfold advisory_metadata_list, rbind.
  repeat match goal with
         | |- context [match ?r with Ok _ => _ | Raise _ => _ end] =>
             destruct r; try discriminate
         end.
  intros Heq. injection Heq as _ <-. reflexivity.
Qed.

(** C3, as amended: for a record that holds the fields the upload reads,
    whose [CVE_LIST] cell evaluates to an iterable of strings and whose
    [XREFS] cell evaluates to an iterable, and a general metadata dict with
    its four keys, the metadata list is a function of the record, the general
    metadata and the family alone, and it has exactly these 15 entries in
    this order: the path [notus_metadata/<FILENAME>], six empty strings, the
    tags, the CVEs joined by a comma and a space, an empty string, the
    cross references, ["3"], ["0"], the family and the title; they are
    all strings when the family and the title are. *)
Theorem advisory_metadata_list_spec `{!Ast}
        (advisory_dict general_metadata_dict family : PyVal)
        (cell meta : string -> PyVal) (cve_list xrefs_list : PyVal)
        (cves : string) (urls : list PyVal) :
  (forall key, In key UPLOADED_FIELDS -> py_getitem advisory_dict key = Ok (cell key)) ->
  (forall key, In key GENERAL_FIELDS -> py_getitem general_metadata_dict key = Ok (meta key)) ->
  py_literal_eval (cell "CVE_LIST") = Ok cve_list ->
  py_join ", " cve_list = Ok cves ->
  py_literal_eval (cell "XREFS") = Ok xrefs_list ->
  py_iter xrefs_list = Ok urls ->
  let l :=
    [ PStr ("notus_metadata/" +:+ py_str (cell "FILENAME"));
      PStr ""; PStr ""; PStr ""; PStr ""; PStr ""; PStr "";
      PStr ("severity_origin=" +:+ py_str (cell "SEVERITY_ORIGIN")
            +:+ "|severity_date=" +:+ py_str (cell "SEVERITY_DATE")
            +:+ "|severity_vector=" +:+ py_str (cell "SEVERITY_VECTOR")
            +:+ "|last_modification=" +:+ py_str (cell "LAST_MODIFICATION")
            +:+ "|creation_date=" +:+ py_str (cell "CREATION_DATE")
            +:+ "|summary=" +:+ py_str (cell "DESCRIPTION")
            +:+ "|vuldetect=" +:+ py_str (meta "VULDETECT")
            +:+ "|insight=" +:+ py_str (cell "INSIGHT")
            +:+ "|affected=" +:+ py_str (cell "AFFECTED")
            +:+ "|solution=" +:+ py_str (meta "SOLUTION")
            +:+ "|solution_type=" +:+ py_str (meta "SOLUTION_TYPE")
            +:+ "|qod_type=" +:+ py_str (meta "QOD_TYPE"));
      PStr cves;
      PStr "";
      PStr (String.concat ", " (map (fun url_string => "URL:" +:+ py_str url_string)
                                    (cell "ADVISORY_XREF" :: urls)));
      PStr "3"; PStr "0"; family; cell "TITLE" ] in
  advisory_metadata_list advisory_dict general_metadata_dict family
  = Ok ("nvt:" +:+ py_str (cell "OID"), l)
  /\ length l = 15
  /\ (is_str family = true -> is_str (cell "TITLE") = true -> forallb is_str l = true).
Proof.
  intros Hcell Hmeta Hcve Hjoin Hxrefs Hiter l.
  split; [|split; [reflexivity | intros Hfamily Htitle; simpl; rewrite Hfamily, Htitle;
                                 reflexivity]].
  unfold advisory_metadata_list.
  rewrite !Hcell by (unfold UPLOADED_FIELDS; simpl; tauto).
  rewrite !Hmeta by (unfold GENERAL_FIELDS; simpl; tauto).
  simpl. rewrite Hcve. simpl. rewrite Hjoin. simpl. rewrite Hxrefs. simpl.
  rewrite (format_xrefs_spec _ _ urls Hiter). simpl.
  reflexivity.
Qed.

(** The metadata list of the example record. *)
Lemma advisory_metadata_list_spec_witness :
  advisory_metadata_list
    (PDict (advisory_with "['pkg']" "['CVE-2020-1', 'CVE-2020-2']"
                          "['http://y', 'http://z']"))
    general_metadata (PStr "Family A")
  = Ok ("nvt:1.3.6.1.4.1.25623.1.1.1",
        [ PStr "notus_metadata/adv1.notus";
          PStr ""; PStr ""; PStr ""; PStr ""; PStr ""; PStr "";
          PStr ("severity_origin=NVD|severity_date=1600000002|severity_vector=AV:N/AC:L"
                +:+ "|last_modification=1600000001|creation_date=1600000000"
                +:+ "|summary=desc|vuldetect=v|insight=insight|affected=affected"
                +:+ "|solution=s|solution_type=VendorFix|qod_type=package");
          PStr "CVE-2020-1, CVE-2020-2";
          PStr "";
          PStr "URL:http://x, URL:http://y, URL:http://z";
          PStr "3"; PStr "0"; PStr "Family A"; PStr "Title" ]).
Proof.
  refine (proj1 (advisory_metadata_list_spec
                   (PDict (advisory_with "['pkg']" "['CVE-2020-1', 'CVE-2020-2']"
                                         "['http://y', 'http://z']"))
                   general_metadata (PStr "Family A") example_cell example_meta
                   (PList [PStr "CVE-2020-1"; PStr "CVE-2020-2"])
                   (PList [PStr "http://y"; PStr "http://z"])
                   "CVE-2020-1, CVE-2020-2"
                   [PStr "http://y"; PStr "http://z"] _ _ _ _ _ _)).
  - intros key Hkey. unfold UPLOADED_FIELDS in Hkey. simpl in Hkey.
    repeat (destruct Hkey as [<-|Hkey]; [vm_compute; reflexivity|]).
    contradiction.
  - intros key Hkey. unfold GENERAL_FIELDS in Hkey. simpl in Hkey.
    repeat (destruct Hkey as [<-|Hkey]; [vm_compute; reflexivity|]).
    contradiction.
  - vm_compute; reflexivity.
  - vm_compute; reflexivity.
  - vm_compute; reflexivity.
  - vm_compute; reflexivity.
Defined.

(** C3, the counterexample: a record that the validator accepts, with a
    [CVE_LIST] cell that holds a bare CVE name, gets no metadata list: the
    evaluation of the cell raises [ValueError]. *)
Lemma validated_record_without_metadata_list :
  _check_advisory_dict (advisory_with "['pkg']" "CVE-2020-1234" "['http://y']") = Ok true
  /\ MiniAst.eval "CVE-2020-1234" = MiniAst.Got (Raise ValueError)
  /\ advisory_metadata_list (PDict (advisory_with "['pkg']" "CVE-2020-1234" "['http://y']"))
                            general_metadata (PStr "Family A")
     = Raise ValueError.
Proof. repeat split; vm_compute; reflexivity. Qed.

(** ** The link line *)

Section LinkFacts.
Context `{!Ast}.


Lemma scan_line_found (p : string) (before after : list string) (line_string : string) :
  Forall (fun line_string => startswith line_string p = false) before ->
  startswith line_string p = true ->
  scan_line p (before ++ line_string :: after) = (Some line_string, after).
Proof.
  intros Hbefore Hline.
  induction Hbefore as [|l before Hl _ IH]; simpl.
  - rewrite Hline. reflexivity.
  - rewrite Hl. exact IH.
Qed.


(** With such a line, the parser returns what the evaluation of the first
    one, stripped of the characters of [link = ] at both ends, returns, and
    leaves the file after that line. *)
Lemma parse_family_driver_link_found (csv_file : IO)
      (before after : list string) (link : string) :
  io_lines csv_file = before ++ link :: after ->
  Forall (fun line_string => startswith line_string "link = " = false) before ->
  startswith link "link = " = true ->
  parse_family_driver_link csv_file
  = (literal_eval (strip link "link = "), mkIO (io_lines csv_file) after).
Proof.
  intros Hlines Hbefore Hlink. unfold parse_family_driver_link, seek0. simpl.
  rewrite Hlines, (scan_line_found _ _ _ _ Hbefore Hlink).
  destruct link as [|c link]; [discriminate Hlink|]. reflexivity.
Qed.

End LinkFacts.

(** C6: on a file without a link line, and on an empty file,
    [parse_family_driver_link] raises [UnboundLocalError]; it does not
    return [None]. *)
Theorem parse_family_driver_link_unbound :
  fst (parse_family_driver_link (text_io no_link_csv)) = Raise UnboundLocalError
  /\ fst (parse_family_driver_link (text_io "")) = Raise UnboundLocalError.
Proof. split; vm_compute; reflexivity. Qed.

Example parse_family_driver_link_example :
  fst (parse_family_driver_link (text_io good_csv))
  = Ok (PDict [(PStr "Family A", PStr "1.3.6.1.4.1.25623.1.0.9")]).
Proof. vm_compute. reflexivity. Qed.

(** ** The upload of the rows of one file *)

Section UploadFacts.
Context {C : Type} `{!NVTICache C} `{!Ast}.
Variable W : @World C.
Variables family general_metadata_dict : PyVal.

(** The [try] block of the upload: the write, or the warning when the KB
    cannot be reached or refuses the list. *)
Lemma try_write_run (kb_key_string : string) (vt : list PyVal) (self : @Handler C) :
  try_except
    (bind (nvti W) (fun cache =>
     bind (lift (add_vt_to_cache cache kb_key_string vt)) (fun cache' =>
     bind (set_nvti cache') (fun _ =>
     bind (emit (KbWrite kb_key_string vt)) (fun _ => ret true)))))
    OspdOpenvasError
    (bind (emit (Log WARNING LSC_NOT_LOADED)) (fun _ => ret false)) self
  = match kb_of_handler W self with
    | None => (Ok false, mkHandler (_nvti self) (_metadata_path self)
                                   (_openvas_settings_dict self)
                                   (trace self ++ [Log WARNING LSC_NOT_LOADED]))
    | Some cache =>
        match add_vt_to_cache cache kb_key_string vt with
        | Ok cache' => (Ok true, mkHandler (Some cache') (_metadata_path self)
                                           (_openvas_settings_dict self)
                                           (trace self ++ [KbWrite kb_key_string vt]))
        | Raise OspdOpenvasError =>
            (Ok false, mkHandler (Some cache) (_metadata_path self)
                                 (_openvas_settings_dict self)
                                 (trace self ++ [Log WARNING LSC_NOT_LOADED]))
        | Raise e => (Raise e, mkHandler (Some cache) (_metadata_path self)
                                         (_openvas_settings_dict self) (trace self))
        end
    end.
Proof.
  unfold try_except, bind at 1.
  destruct (kb_of_handler W self) as [cache|] eqn:Hkb.
  - rewrite (nvti_run W self cache Hkb).
    unfold bind, lift, set_nvti, emit, ret. simpl.
    destruct (add_vt_to_cache cache kb_key_string vt) as [cache'|e]; simpl.
    + reflexivity.
    + destruct e; reflexivity.
  - rewrite (nvti_unreachable W self Hkb). simpl. destruct self; reflexivity.
Qed.

Lemma upload_advisory_run (advisory_dict : items) (self : @Handler C) :
  upload_advisory W family general_metadata_dict advisory_dict self
  = match _check_advisory_dict advisory_dict with
    | Raise e => (Raise e, self)
    | Ok false => (Ok false, self)
    | Ok true =>
        match advisory_metadata_list (PDict advisory_dict) general_metadata_dict family with
        | Raise e => (Raise e, self)
        | Ok (kb_key_string, vt) =>
            match kb_of_handler W self with
            | None => (Ok false, mkHandler (_nvti self) (_metadata_path self)
                                           (_openvas_settings_dict self)
                                           (trace self ++ [Log WARNING LSC_NOT_LOADED]))
            | Some cache =>
                match add_vt_to_cache cache kb_key_string vt with
                | Ok cache' => (Ok true, mkHandler (Some cache') (_metadata_path self)
                                                   (_openvas_settings_dict self)
                                                   (trace self ++ [KbWrite kb_key_string vt]))
                | Raise OspdOpenvasError =>
                    (Ok false, mkHandler (Some cache) (_metadata_path self)
                                         (_openvas_settings_dict self)
                                         (trace self ++ [Log WARNING LSC_NOT_LOADED]))
                | Raise e => (Raise e, mkHandler (Some cache) (_metadata_path self)
                                                 (_openvas_settings_dict self) (trace self))
                end
            end
        end
    end.
Proof.
  unfold upload_advisory. unfold bind at 1. unfold lift at 1.
  destruct (_check_advisory_dict advisory_dict) as [[|]|e]; simpl; try reflexivity.
  unfold bind at 1. unfold lift at 1.
  destruct (advisory_metadata_list (PDict advisory_dict) general_metadata_dict family)
    as [[kb_key_string vt]|e]; simpl; [|reflexivity].
  apply try_write_run.
Qed.





End UploadFacts.


(** ** Runs over a directory *)

(** The end-to-end scenario of the specification: one well-formed file with
    one valid row and one row without a title gives one KB write, the
    count 1/2 and the warning, and the run ends normally. *)
Example update_metadata_example :
  let run := update_metadata (world_of 1 [(GOOD, good_csv)]) fresh_handler in
  fst run = Ok tt
  /\ List.filter is_kb_write (trace (snd run))
     = [ KbWrite "nvt:1.3.6.1.4.1.25623.1.1.1"
           [ PStr "notus_metadata/adv1.notus";
             PStr ""; PStr ""; PStr ""; PStr ""; PStr ""; PStr "";
             PStr ("severity_origin=NVD|severity_date=1600000002|severity_vector=AV:N/AC:L"
                   +:+ "|last_modification=1600000001|creation_date=1600000000"
                   +:+ "|summary=desc|vuldetect=v|insight=insight|affected=affected"
                   +:+ "|solution=s|solution_type=VendorFix|qod_type=package");
             PStr "CVE-2020-1, CVE-2020-2";
             PStr "";
             PStr "URL:http://x, URL:http://y, URL:http://z";
             PStr "3"; PStr "0"; PStr "Family A"; PStr "Title" ] ]
  /\ In (Log DEBUG "Loaded 1/2 advisories from good.csv") (trace (snd run))
  /\ In (Log WARNING "Some advaisory was not loaded from good.csv") (trace (snd run)).
Proof.
  vm_compute. repeat split; try reflexivity; tauto.
Qed.

(** C1: a file that passes the checksum check and has no link line ends
    the run of [update_metadata] with [UnboundLocalError]: the file after it
    is never opened and nothing is written, although the same file alone is
    loaded. *)
Theorem update_metadata_stops_at_file_without_link :
  let run := update_metadata (world_of 1 [(NO_LINK, no_link_csv); (GOOD, good_csv)])
                             fresh_handler in
  fst run = Raise UnboundLocalError
  /\ trace (snd run)
     = [ Log DEBUG "Starting the Notus metadata load up";
         FileGlob "/feed/notus_metadata/*.csv";
         Log DEBUG "Checksum check for /feed/notus_metadata/no_link.csv successful";
         FileOpen NO_LINK "r" ]
  /\ fst (update_metadata (world_of 1 [(GOOD, good_csv)]) fresh_handler) = Ok tt.
Proof.
  vm_compute. repeat split; reflexivity.
Qed.

(** Two files with different families, and two files with the same family:
    the entries add up, and the file read later wins. *)
Example get_family_driver_linkers_example :
  fst (get_family_driver_linkers (world_of 1 [(SMALL, small_csv); (GOOD, good_csv)])
                                 fresh_handler)
  = Ok [ (PStr "Family B", PStr "1.3.6.1.4.1.25623.1.0.8");
         (PStr "Family A", PStr "1.3.6.1.4.1.25623.1.0.9") ]
  /\ fst (get_family_driver_linkers
            (world_of 1 [(GOOD, good_csv);
                         (SMALL, unlines ["link = {'Family A': '1.3.6.1.4.1.25623.1.0.7'}"])])
            fresh_handler)
     = Ok [ (PStr "Family A", PStr "1.3.6.1.4.1.25623.1.0.7") ]
  /\ fst (get_family_driver_linkers (world_of 1 []) fresh_handler) = Ok [].
Proof.
  vm_compute. repeat split; reflexivity.
Qed.

(** C7: on a directory whose only file passes the checksum check and has
    no link line, [get_family_driver_linkers] raises [UnboundLocalError]; it
    does not return the empty dict. *)
Theorem get_family_driver_linkers_raises :
  let run := get_family_driver_linkers (world_of 1 [(NO_LINK, no_link_csv)])
                                       fresh_handler in
  fst run = Raise UnboundLocalError
  /\ trace (snd run)
     = [ FileGlob "/feed/notus_metadata/*.csv";
         Log DEBUG "Checksum check for /feed/notus_metadata/no_link.csv successful";
         FileOpen NO_LINK "r" ].
Proof.
  vm_compute. split; reflexivity.
Qed.

(** C8: with [table_driven_lsc] off, [update_metadata] returns at once,
    having opened no file and written nothing; on a directory with a valid
    file and a file without a link line, [get_family_driver_linkers] raises
    [UnboundLocalError] although the valid file was read. *)
Theorem gate_off_linkers_raise :
  let W := world_of 0 [(GOOD, good_csv); (NO_LINK, no_link_csv)] in
  fst (update_metadata W fresh_handler) = Ok tt
  /\ trace (snd (update_metadata W fresh_handler)) = []
  /\ fst (get_family_driver_linkers W fresh_handler) = Raise UnboundLocalError
  /\ trace (snd (get_family_driver_linkers W fresh_handler))
     = [ FileGlob "/feed/notus_metadata/*.csv";
         Log DEBUG "Checksum check for /feed/notus_metadata/good.csv successful";
         FileOpen GOOD "r";
         Log DEBUG "Checksum check for /feed/notus_metadata/no_link.csv successful";
         FileOpen NO_LINK "r" ]
  /\ fst (get_family_driver_linkers (world_of 0 [(GOOD, good_csv)]) fresh_handler)
     = Ok [ (PStr "Family A", PStr "1.3.6.1.4.1.25623.1.0.9") ].
Proof.
  vm_compute. repeat split; reflexivity.
Qed.

(** ** Stripping the link line *)

Lemma append_cons (c : ascii) (s t : string) : String c s +:+ t = String c (s +:+ t).
Proof. reflexivity. Qed.

Lemma rev_app_append (s1 s2 acc : string) :
  String.rev_app (s1 +:+ s2) acc = String.rev_app s2 (String.rev_app s1 acc).
Proof.
  revert acc. induction s1 as [|c s1 IH]; intros acc.
  - reflexivity.
  - rewrite append_cons. simpl. apply IH.
Qed.

Lemma rev_app_rev_app (s acc acc' : string) :
  String.rev_app (String.rev_app s acc) acc' = String.rev_app acc (s +:+ acc').
Proof.
  revert acc acc'. induction s as [|c s IH]; intros acc acc'.
  - reflexivity.
  - simpl. rewrite IH, append_cons. reflexivity.
Qed.

Lemma append_empty_r (s : string) : s +:+ "" = s.
Proof.
  induction s as [|c s IH]; [reflexivity|].
  rewrite append_cons, IH. reflexivity.
Qed.

Lemma string_rev_involutive (s : string) : String.rev (String.rev s) = s.
Proof.
  unfold String.rev. rewrite rev_app_rev_app. simpl. apply append_empty_r.
Qed.

(** A text that starts and ends with characters that do not occur in
    [chars] is left as it is. *)
Lemma strip_inner (chars middle : string) (first last : ascii) :
  in_chars first chars = false ->
  in_chars last chars = false ->
  strip (String first (middle +:+ String last "")) chars
  = String first (middle +:+ String last "").
Proof.
  intros Hfirst Hlast. unfold strip, rstrip. simpl. rewrite Hfirst.
  change (String first (middle +:+ String last ""))
    with (String first middle +:+ String last "").
  assert (Hrev : String.rev (String first middle +:+ String last "")
                 = String last (String.rev (String first middle))).
  { unfold String.rev. rewrite rev_app_append. reflexivity. }
  rewrite Hrev. simpl. rewrite Hlast. rewrite <- Hrev.
  apply string_rev_involutive.
Qed.

(** After [link = ], a remainder that starts and ends with characters other
    than those of [link = ] (a brace and a line end, for a dict) is what
    [strip] leaves of the line. *)
Lemma strip_link_line (middle : string) (first last : ascii) :
  in_chars first "link = " = false ->
  in_chars last "link = " = false ->
  strip ("link = " +:+ String first (middle +:+ String last "")) "link = "
  = String first (middle +:+ String last "").
Proof.
  intros Hfirst Hlast.
  rewrite <- (strip_inner "link = " middle first last Hfirst Hlast) at 2.
  reflexivity.
Qed.

(** For a file whose first line starting with [link = ] goes on with a text
    that starts and ends with characters other than those of [link = ],
    [parse_family_driver_link] returns what the literal evaluation of that
    text returns. *)
Theorem parse_family_driver_link_remainder `{!Ast} (csv_file : IO)
        (before after : list string) (middle : string) (first last : ascii) :
  io_lines csv_file
  = before ++ ("link = " +:+ String first (middle +:+ String last "")) :: after ->
  Forall (fun line_string => startswith line_string "link = " = false) before ->
  in_chars first "link = " = false ->
  in_chars last "link = " = false ->
  fst (parse_family_driver_link csv_file)
  = literal_eval (String first (middle +:+ String last "")).
Proof.
  intros Hlines Hbefore Hfirst Hlast.
  rewrite (parse_family_driver_link_found csv_file before after _ Hlines Hbefore eq_refl).
  simpl. f_equal. apply strip_link_line; assumption.
Qed.

Lemma parse_family_driver_link_remainder_witness :
  fst (parse_family_driver_link (text_io good_csv))
  = literal_eval ("{'Family A': '1.3.6.1.4.1.25623.1.0.9'}" +:+ nl).
Proof.
  apply (parse_family_driver_link_remainder
           (text_io good_csv) ["# Copyright" +:+ nl]
           (skipn 2 (readlines good_csv))
           "'Family A': '1.3.6.1.4.1.25623.1.0.9'}" "{" LF).
  - vm_compute. reflexivity.
  - constructor; [reflexivity | constructor].
  - reflexivity.
  - reflexivity.
Defined.

(** ** The setting [table_driven_lsc] *)

(** With [table_driven_lsc] off, [update_metadata] returns at once: the
    handler only remembers the settings it read; no file is searched or
    opened and the KB is neither connected nor written. *)
Theorem update_metadata_gate_off {C : Type} `{!NVTICache C} `{!Ast} `{!Hashlib} `{!Csv}
        (W : @World C) (self : @Handler C) :
  py_truth (settings_get (settings_of_handler W self) "table_driven_lsc") = false ->
  update_metadata W self
  = (Ok tt, mkHandler (_nvti self) (_metadata_path self)
                      (Some (settings_of_handler W self)) (trace self)).
Proof.
  intros Hoff. unfold update_metadata, bind.
  rewrite openvas_setting_run, Hoff. reflexivity.
Qed.

Lemma update_metadata_gate_off_witness :
  update_metadata (world_of 0 [(GOOD, good_csv)]) fresh_handler
  = (Ok tt, mkHandler None None (Some (settings_of 0)) []).
Proof.
  apply (update_metadata_gate_off (world_of 0 [(GOOD, good_csv)]) fresh_handler).
  vm_compute. reflexivity.
Defined.

(** ** The family links of a directory *)

Lemma dict_set_get_same (d : items) (key : string) (v : PyVal) :
  dict_get (dict_set d (PStr key) v) (PStr key) = Some v.
Proof.
  induction d as [|[k' v'] d IH]; simpl.
  - rewrite String.eqb_refl. reflexivity.
  - destruct (py_eqb k' (PStr key)) eqn:Hk; simpl; rewrite Hk; [reflexivity | exact IH].
Qed.

Lemma py_eqb_str (k : PyVal) (s : string) : py_eqb k (PStr s) = true -> k = PStr s.
Proof.
  destruct k; simpl; try discriminate.
  intros Heq. apply String.eqb_eq in Heq. congruence.
Qed.

Lemma dict_set_get_other (d : items) (key other : string) (v : PyVal) :
  key <> other ->
  dict_get (dict_set d (PStr key) v) (PStr other) = dict_get d (PStr other).
Proof.
  intros Hne. induction d as [|[k' v'] d IH]; simpl.
  - destruct (String.eqb key other) eqn:Heq; [|reflexivity].
    apply String.eqb_eq in Heq. contradiction.
  - destruct (py_eqb k' (PStr key)) eqn:Hk; simpl.
    + apply py_eqb_str in Hk. subst k'. simpl.
      destruct (String.eqb key other) eqn:Heq; [|reflexivity].
      apply String.eqb_eq in Heq. contradiction.
    + rewrite IH. reflexivity.
Qed.

Lemma find_append {A} (f : A -> bool) (l1 l2 : list A) :
  List.find f (l1 ++ l2)
  = match List.find f l1 with
    | Some x => Some x
    | None => List.find f l2
    end.
Proof.
  induction l1 as [|x l1 IH]; simpl; [reflexivity|].
  destruct (f x); [reflexivity | exact IH].
Qed.

(** Single [{family: driver}] entries accumulated in order: a family maps to
    the driver of the last entry that names it. *)
Theorem family_links_last_wins (pairs : list (string * PyVal)) (acc : items)
        (family : string) :
  dict_get (fold_left (fun acc entry => dict_update acc [(PStr (fst entry), snd entry)])
                      pairs acc) (PStr family)
  = match List.find (fun entry => String.eqb (fst entry) family) (rev pairs) with
    | Some entry => Some (snd entry)
    | None => dict_get acc (PStr family)
    end.
Proof.
  revert acc. induction pairs as [|[f v] pairs IH]; intros acc; simpl.
  - reflexivity.
  - rewrite IH. rewrite find_append.
    destruct (List.find (fun entry => String.eqb (fst entry) family) (rev pairs)) as [e|].
    + reflexivity.
    + unfold dict_update. simpl.
      destruct (String.eqb f family) eqn:Heq.
      * apply String.eqb_eq in Heq. subst f. apply dict_set_get_same.
      * apply dict_set_get_other. intros ->. rewrite String.eqb_refl in Heq. discriminate.
Qed.

Section LinkersFacts.
Context {C : Type} `{!NVTICache C} `{!Ast} `{!Hashlib}.
Variable W : @World C.



Lemma same_view_emit (self : @Handler C) (e : event) :
  same_view W self (snd (emit e self)).
Proof. split; reflexivity. Qed.







End LinkersFacts.



(** ** Further facts about the run *)



(** The digest that [is_checksum_correct] computes block by block is the
    digest of the whole file. *)
Theorem checksum_blocks_digest `{!Hashlib} (content : list Byte.byte) :
  hexdigest (fold_left sha256_update (read_blocks 4096 content) sha256)
  = sha256_hexdigest_of content.
Proof. rewrite sha256_stream. reflexivity. Qed.

(** The cross references: the link of the advisory and the links of the
    list, each after [URL:], joined by a comma and a space. *)
Theorem format_xrefs_urls `{!Ast} (advisory_xref_string xrefs_list : PyVal)
        (urls : list PyVal) :
  py_iter xrefs_list = Ok urls ->
  _format_xrefs advisory_xref_string xrefs_list
  = Ok (String.concat ", " (map (fun url_string => "URL:" +:+ py_str url_string)
                                (advisory_xref_string :: urls))).
Proof. apply format_xrefs_spec. Qed.

Lemma format_xrefs_urls_witness :
  _format_xrefs (PStr "http://x") (PList [PStr "http://y"; PStr "http://z"])
  = Ok "URL:http://x, URL:http://y, URL:http://z".
Proof.
  exact (format_xrefs_urls (PStr "http://x") (PList [PStr "http://y"; PStr "http://z"])
                           [PStr "http://y"; PStr "http://z"] eq_refl).
Defined.

(** A record with a falsy value is never accepted. *)
Theorem check_advisory_dict_rejects_falsy `{!Ast} (advisory_dict : items)
        (key value : PyVal) :
  In (key, value) advisory_dict ->
  py_truth value = false ->
  _check_advisory_dict advisory_dict <> Ok true.
Proof. apply check_advisory_dict_falsy. Qed.

Lemma check_advisory_dict_rejects_falsy_witness :
  _check_advisory_dict
    [ (PStr "OID", PStr "1.3.6.1.4.1.25623.1.1.2"); (PStr "TITLE", PStr "");
      (PStr "SOURCE_PKGS", PStr "['pkg']") ]
  <> Ok true.
Proof.
  apply (check_advisory_dict_rejects_falsy _ (PStr "TITLE") (PStr "")).
  - simpl. tauto.
  - reflexivity.
Defined.

(** When the KB cannot be reached, the checksum check of a file raises
    [OspdOpenvasError], while the upload of a row catches it: the row is
    counted as not loaded and a warning is logged. *)
Theorem unreachable_kb {C : Type} `{!NVTICache C} `{!Ast} `{!Hashlib}
        (W : @World C) (self : @Handler C) :
  kb_of_handler W self = None ->
  (forall (file_abs_path : string) (content : list Byte.byte),
      py_truth (settings_get (settings_of_handler W self) "nasl_no_signature_check")
      = false ->
      lookup_file (files W) file_abs_path = Some content ->
      fst (is_checksum_correct W file_abs_path self) = Raise OspdOpenvasError)
  /\ (forall (family general_metadata_dict : PyVal) (advisory_dict : items)
             (kb_key_string : string) (vt : list PyVal),
         _check_advisory_dict advisory_dict = Ok true ->
         advisory_metadata_list (PDict advisory_dict) general_metadata_dict family
         = Ok (kb_key_string, vt) ->
         upload_advisory W family general_metadata_dict advisory_dict self
         = (Ok false, mkHandler (_nvti self) (_metadata_path self)
                                (_openvas_settings_dict self)
                                (trace self ++ [Log WARNING LSC_NOT_LOADED]))).
Proof.
  intros Hkb. split.
  - intros file_abs_path content Hon Hfile.
    unfold is_checksum_correct, bind.
    rewrite openvas_setting_run, Hon. simpl.
    unfold open_file, bind, emit. simpl. rewrite Hfile. unfold ret at 1.
    rewrite nvti_unreachable by exact Hkb. reflexivity.
  - intros family general_metadata_dict advisory_dict kb_key_string vt Hcheck Hlist.
    rewrite upload_advisory_run, Hcheck, Hlist, Hkb. reflexivity.
Qed.

Lemma unreachable_kb_witness :
  upload_advisory
    (mkWorld (settings_of 1) ∅ None []) (PStr "Family A") general_metadata
    (advisory_with "['pkg']" "['CVE-2020-1']" "['http://y']") fresh_handler
  = (Ok false, mkHandler None None None [Log WARNING LSC_NOT_LOADED]).
Proof.
  refine (proj2 (unreachable_kb (mkWorld (settings_of 1) ∅ None []) fresh_handler eq_refl)
                (PStr "Family A") general_metadata
                (advisory_with "['pkg']" "['CVE-2020-1']" "['http://y']") _ _ _ _).
  - vm_compute. reflexivity.
  - vm_compute. reflexivity.
Defined.

(** The checksum check with the signature check on: a recorded digest that
    matches, one that does not, and none. *)
Example is_checksum_correct_example :
  let settings : gmap string PyVal :=
    <["plugins_folder" := PStr "/feed"]> (<["nasl_no_signature_check" := PInt 0]> ∅) in
  let digest := sha256_hexdigest_of (list_byte_of_string good_csv) in
  let world (recorded : gmap string string) : @World KB :=
    mkWorld settings ∅ (Some (mkKB recorded ∅)) [(GOOD, list_byte_of_string good_csv)] in
  fst (is_checksum_correct (world {[GOOD := digest]}) GOOD fresh_handler) = Ok true
  /\ fst (is_checksum_correct (world {[GOOD := "00"]}) GOOD fresh_handler) = Ok false
  /\ fst (is_checksum_correct (world ∅) GOOD fresh_handler) = Ok false.
Proof. vm_compute. repeat split; reflexivity. Qed.

(** ** The field names *)

Lemma py_eqb_str_l (s : string) (v : PyVal) : py_eqb (PStr s) v = true -> v = PStr s.
Proof.
  destruct v; simpl; try discriminate.
  intros Heq. apply String.eqb_eq in Heq. congruence.
Qed.

Lemma py_eqb_str_list (l : list string) (y : list PyVal) :
  py_eqb (PList (map PStr l)) (PList y) = true <-> y = map PStr l.
Proof.
  revert y. induction l as [|a l IH]; intros [|b y]; simpl; split;
    try discriminate; try reflexivity.
  - intros Heq. apply andb_prop in Heq as [Hb Hy].
    apply py_eqb_str_l in Hb. subst b. f_equal. apply IH. exact Hy.
  - intros Heq. injection Heq as -> ->.
    rewrite String.eqb_refl. simpl. apply IH. reflexivity.
Qed.

(** [_check_field_names_lsc] accepts exactly the list of the 17 expected
    names in their order: a list with a name missing, added, changed or
    moved, and [None] (a file without a header row), are refused. *)
Theorem check_field_names_lsc_exact (field_names_list : PyVal) :
  _check_field_names_lsc field_names_list = true
  <-> field_names_list = PList (map PStr EXPECTED_FIELD_NAMES_LIST).
Proof.
  unfold _check_field_names_lsc.
  destruct field_names_list as [| | | |y| |];
    try (simpl; split; [discriminate | intros Heq; discriminate Heq]).
  destruct (py_eqb (PList (map PStr EXPECTED_FIELD_NAMES_LIST)) (PList y)) eqn:Heq; simpl.
  - apply py_eqb_str_list in Heq. subst y. split; reflexivity.
  - split; [discriminate|]. intros Hy. rewrite Hy in Heq.
    vm_compute in Heq. discriminate Heq.
Qed.

(** ** The cached properties *)

(** The properties [metadata_path], [openvas_setting] and [nvti] are
    computed once: after a first read that returned, a second read returns
    the same value and leaves the handler as it is, whatever the settings,
    the environment and the reachable KB have become in between. *)
Theorem properties_are_cached {C : Type} (W W' : @World C) (self : @Handler C) :
  (forall (p : string) (self1 : @Handler C),
      metadata_path W self = (Ok p, self1) -> metadata_path W' self1 = (Ok p, self1))
  /\ (forall (d : gmap string PyVal) (self1 : @Handler C),
         openvas_setting W self = (Ok d, self1) -> openvas_setting W' self1 = (Ok d, self1))
  /\ (forall (c : C) (self1 : @Handler C),
         nvti W self = (Ok c, self1) -> nvti W' self1 = (Ok c, self1)).
Proof.
  repeat split.
  - intros p self1. unfold metadata_path.
    destruct (_metadata_path self) as [q|] eqn:Hq.
    + intros Heq. injection Heq as <- <-. rewrite Hq. reflexivity.
    + unfold bind. rewrite openvas_setting_run.
      destruct (py_truth (settings_get (settings_of_handler W self) "plugins_folder")).
      * intros Heq. injection Heq as <- <-. reflexivity.
      * destruct (environ W !! "INSTALL_PREFIX") as [[|c prefix]|];
          intros Heq; injection Heq as <- <-; reflexivity.
  - intros d self1. rewrite openvas_setting_run.
    intros Heq. injection Heq as <- <-. reflexivity.
  - intros c self1. unfold nvti.
    destruct (_nvti self) as [c0|] eqn:Hc.
    + intros Heq. injection Heq as <- <-. rewrite Hc. reflexivity.
    + destruct (MainDB W) as [c0|]; [|discriminate].
      intros Heq. injection Heq as <- <-. reflexivity.
Qed.

(** ** More on the validator *)

(** The only exceptions that leave [_check_advisory_dict] are those that
    the evaluation of a truthy [SOURCE_PKGS] cell raises, other than
    [ValueError] and [TypeError], which are caught. *)
Theorem check_advisory_dict_raises `{!Ast} (advisory_dict : items) (e : exn) :
  _check_advisory_dict advisory_dict = Raise e ->
  e <> ValueError /\ e <> TypeError
  /\ exists (key value : PyVal),
      In (key, value) advisory_dict
      /\ py_eqb key (PStr "SOURCE_PKGS") = true
      /\ py_truth value = true
      /\ py_literal_eval value = Raise e.
Proof.
  induction advisory_dict as [|[key value] rest IH]; simpl; [discriminate|].
  destruct (py_truth value) eqn:Htruth; simpl; [|discriminate].
  destruct (py_eqb key (PStr "SOURCE_PKGS")) eqn:Hkey.
  - destruct (py_literal_eval value) as [v|e'] eqn:Hev; simpl.
    + destruct (py_len v) as [[|n]|e'] eqn:Hlen; simpl; try discriminate.
      * intros Hrest. destruct (IH Hrest) as (H1 & H2 & k & x & Hin & Hk & Ht & Hx).
        repeat split; try assumption. exists k, x. repeat split; try assumption.
        right. exact Hin.
      * destruct v; simpl in Hlen; try discriminate;
          injection Hlen as <-; discriminate.
    + destruct e'; try discriminate;
        (intros Heq; injection Heq as <-;
         repeat split; try discriminate;
         exists key, value; repeat split; try assumption; left; reflexivity).
  - intros Hrest. destruct (IH Hrest) as (H1 & H2 & k & x & Hin & Hk & Ht & Hx).
    repeat split; try assumption. exists k, x. repeat split; try assumption.
    right. exact Hin.
Qed.

Lemma check_advisory_dict_raises_witness :
  SyntaxError <> ValueError /\ SyntaxError <> TypeError
  /\ exists (key value : PyVal),
      In (key, value) (advisory_with "['a'" "['CVE-2020-1']" "['http://y']")
      /\ py_eqb key (PStr "SOURCE_PKGS") = true
      /\ py_truth value = true
      /\ py_literal_eval value = Raise SyntaxError.
Proof.
  apply (check_advisory_dict_raises
           (advisory_with "['a'" "['CVE-2020-1']" "['http://y']") SyntaxError).
  vm_compute. reflexivity.
Defined.

(** A record without a [SOURCE_PKGS] key is accepted exactly when all its
    values are truthy: the validator does not ask for any field to be
    present, and the empty record is accepted. *)
Theorem check_advisory_dict_without_source_pkgs `{!Ast} (advisory_dict : items) :
  Forall (fun kv => py_eqb (fst kv) (PStr "SOURCE_PKGS") = false) advisory_dict ->
  _check_advisory_dict advisory_dict
  = Ok (forallb (fun kv => py_truth (snd kv)) advisory_dict).
Proof.
  induction 1 as [|[key value] rest Hkey _ IH]; simpl; [reflexivity|].
  simpl in Hkey. rewrite Hkey.
  destruct (py_truth value); simpl; [exact IH | reflexivity].
Qed.

Lemma check_advisory_dict_without_source_pkgs_witness :
  _check_advisory_dict [] = Ok true
  /\ _check_advisory_dict [(PStr "OID", PStr "1.3.6.1.4.1.25623.1.1.1")] = Ok true.
Proof.
  split.
  - apply (check_advisory_dict_without_source_pkgs []). constructor.
  - apply (check_advisory_dict_without_source_pkgs
             [(PStr "OID", PStr "1.3.6.1.4.1.25623.1.1.1")]).
    repeat constructor.
Defined.

(** ** More on the metadata list *)

Lemma rbind_ok {A B} (r : result A) (k : A -> result B) (b : B) :
  rbind r k = Ok b -> exists a, r = Ok a /\ k a = Ok b.
Proof. destruct r as [a|e]; simpl; [eauto | discriminate]. Qed.

Lemma format_xrefs_iterable `{!Ast} (advisory_xref_string xrefs_list : PyVal) (s : string) :
  _format_xrefs advisory_xref_string xrefs_list = Ok s ->
  exists urls, py_iter xrefs_list = Ok urls.
Proof.
  unfold _format_xrefs. intros Hrun.
  apply rbind_ok in Hrun as (urls & Hiter & _). eauto.
Qed.

(** The key of a metadata list is [nvt:] followed by the OID. *)
Lemma advisory_metadata_list_key `{!Ast}
      (advisory_dict general_metadata_dict family : PyVal)
      (kb_key_string : string) (l : list PyVal) :
  advisory_metadata_list advisory_dict general_metadata_dict family
  = Ok (kb_key_string, l) ->
  exists oid, py_getitem advisory_dict "OID" = Ok oid
              /\ kb_key_string = "nvt:" +:+ py_str oid.
Proof.
  unfold advisory_metadata_list. intros Hrun.
  apply rbind_ok in Hrun as (oid & Hoid & Hrun). exists oid. split; [exact Hoid|].
  repeat (apply rbind_ok in Hrun as (? & _ & Hrun)).
  injection Hrun as <- _. reflexivity.
Qed.

(** The upload builds a metadata list only for a record that holds every
    field it reads, with a general metadata value that holds its four keys,
    a [CVE_LIST] cell that evaluates to something [join] accepts and an
    [XREFS] cell that evaluates to an iterable; in every other case it
    raises. *)
Theorem advisory_metadata_list_only_if `{!Ast}
        (advisory_dict general_metadata_dict family : PyVal)
        (kb_key_string : string) (l : list PyVal) :
  advisory_metadata_list advisory_dict general_metadata_dict family
  = Ok (kb_key_string, l) ->
  (forall key, In key UPLOADED_FIELDS -> exists v, py_getitem advisory_dict key = Ok v)
  /\ (forall key, In key GENERAL_FIELDS ->
                  exists v, py_getitem general_metadata_dict key = Ok v)
  /\ (exists cell cve_list cves,
         py_getitem advisory_dict "CVE_LIST" = Ok cell
         /\ py_literal_eval cell = Ok cve_list
         /\ py_join ", " cve_list = Ok cves)
  /\ (exists cell xrefs_list urls,
         py_getitem advisory_dict "XREFS" = Ok cell
         /\ py_literal_eval cell = Ok xrefs_list
         /\ py_iter xrefs_list = Ok urls).
Proof.
  unfold advisory_metadata_list. intros Hrun.
  apply rbind_ok in Hrun as (oid & Hoid & Hrun).
  apply rbind_ok in Hrun as (filename & Hfilename & Hrun).
  apply rbind_ok in Hrun as (a1 & H1 & Hrun).
  apply rbind_ok in Hrun as (a2 & H2 & Hrun).
  apply rbind_ok in Hrun as (a3 & H3 & Hrun).
  apply rbind_ok in Hrun as (a4 & H4 & Hrun).
  apply rbind_ok in Hrun as (a5 & H5 & Hrun).
  apply rbind_ok in Hrun as (a6 & H6 & Hrun).
  apply rbind_ok in Hrun as (a7 & H7 & Hrun).
  apply rbind_ok in Hrun as (a8 & H8 & Hrun).
  apply rbind_ok in Hrun as (a9 & H9 & Hrun).
  apply rbind_ok in Hrun as (a10 & H10 & Hrun).
  apply rbind_ok in Hrun as (a11 & H11 & Hrun).
  apply rbind_ok in Hrun as (a12 & H12 & Hrun).
  apply rbind_ok in Hrun as (cve_cell & Hcve_cell & Hrun).
  apply rbind_ok in Hrun as (cve_list & Hcve_list & Hrun).
  apply rbind_ok in Hrun as (cves & Hcves & Hrun).
  apply rbind_ok in Hrun as (advisory_xref & Hxref & Hrun).
  apply rbind_ok in Hrun as (xrefs_cell & Hxrefs_cell & Hrun).
  apply rbind_ok in Hrun as (xrefs_list & Hxrefs_list & Hrun).
  apply rbind_ok in Hrun as (xrefs & Hxrefs & Hrun).
  apply rbind_ok in Hrun as (title & Htitle & Hrun).
  apply format_xrefs_iterable in Hxrefs as (urls & Hurls).
  split; [|split; [|split]].
  - intros key Hkey. unfold UPLOADED_FIELDS in Hkey. simpl in Hkey.
    repeat (destruct Hkey as [<-|Hkey]; [eauto|]). contradiction.
  - intros key Hkey. unfold GENERAL_FIELDS in Hkey. simpl in Hkey.
    repeat (destruct Hkey as [<-|Hkey]; [eauto|]). contradiction.
  - exists cve_cell, cve_list, cves. auto.
  - exists xrefs_cell, xrefs_list, urls. auto.
Qed.

Lemma advisory_metadata_list_only_if_witness :
  exists cell cve_list cves,
    py_getitem (PDict (advisory_with "['pkg']" "['CVE-2020-1']" "['http://y']")) "CVE_LIST"
    = Ok cell
    /\ py_literal_eval cell = Ok cve_list
    /\ py_join ", " cve_list = Ok cves.
Proof.
  refine (proj1 (proj2 (proj2
    (advisory_metadata_list_only_if
       (PDict (advisory_with "['pkg']" "['CVE-2020-1']" "['http://y']"))
       general_metadata (PStr "Family A")
       "nvt:1.3.6.1.4.1.25623.1.1.1"
       (snd (match advisory_metadata_list
                     (PDict (advisory_with "['pkg']" "['CVE-2020-1']" "['http://y']"))
                     general_metadata (PStr "Family A") with
             | Ok kv => kv
             | Raise _ => ("", [])
             end)) _)))).
  vm_compute. reflexivity.
Defined.

(** ** What the upload leaves behind *)

Section UploadFrame.
Context {C : Type} `{!NVTICache C} `{!Ast}.
Variable W : @World C.
Variables family general_metadata_dict : PyVal.

Lemma extends_with_refl (P : event -> Prop) (self : @Handler C) : extends_with P self self.
Proof. exists []. split; [symmetry; apply app_nil_r | constructor]. Qed.

Lemma extends_with_trans (P : event -> Prop) (a b c : @Handler C) :
  extends_with P a b -> extends_with P b c -> extends_with P a c.
Proof.
  intros (e1 & H1 & F1) (e2 & H2 & F2). exists (e1 ++ e2). split.
  - rewrite H2, H1. symmetry. apply app_assoc.
  - apply Forall_app. split; assumption.
Qed.

(** What one advisory does to the handler: at most one event is added, a
    well-formed write or the warning, and the metadata path and the cached
    settings stay. *)
Lemma upload_advisory_frame (advisory_dict : items) (self : @Handler C) :
  let self' := snd (upload_advisory W family general_metadata_dict advisory_dict self) in
  extends_with well_formed_event self self'
  /\ _metadata_path self' = _metadata_path self
  /\ _openvas_settings_dict self' = _openvas_settings_dict self.
Proof.
  rewrite upload_advisory_run.
  destruct (_check_advisory_dict advisory_dict) as [[|]|e]; simpl;
    try (split; [apply extends_with_refl | split; reflexivity]).
  destruct (advisory_metadata_list (PDict advisory_dict) general_metadata_dict family)
    as [[kb_key_string vt]|e] eqn:Hlist; simpl;
    try (split; [apply extends_with_refl | split; reflexivity]).
  destruct (kb_of_handler W self) as [cache|]; simpl.
  - destruct (add_vt_to_cache cache kb_key_string vt) as [cache'|e]; simpl.
    + split; [|split; reflexivity].
      exists [KbWrite kb_key_string vt]. split; [reflexivity|].
      constructor; [|constructor]. simpl. split.
      * apply advisory_metadata_list_key in Hlist as (oid & _ & ->).
        unfold startswith. destruct (py_str oid); reflexivity.
      * eapply advisory_metadata_list_length. exact Hlist.
    + destruct e; simpl; (split; [|split; reflexivity]);
        try (exists []; split; [symmetry; apply app_nil_r | constructor]).
      exists [Log WARNING LSC_NOT_LOADED]. split; [reflexivity|].
      constructor; [exact I | constructor].
  - split; [|split; reflexivity].
    exists [Log WARNING LSC_NOT_LOADED]. split; [reflexivity|].
    constructor; [exact I | constructor].
Qed.

Lemma upload_loop_frame (csv_reader : list items) :
  forall (loaded total : nat) (self : @Handler C),
    let self' := snd (upload_loop W family general_metadata_dict csv_reader
                                  loaded total self) in
    extends_with well_formed_event self self'
    /\ _metadata_path self' = _metadata_path self
    /\ _openvas_settings_dict self' = _openvas_settings_dict self.
Proof.
  induction csv_reader as [|advisory_dict rest IH]; intros loaded total self.
  - simpl. split; [apply extends_with_refl | split; reflexivity].
  - simpl. unfold bind.
    pose proof (upload_advisory_frame advisory_dict self) as Hrow. simpl in Hrow.
    destruct (upload_advisory W family general_metadata_dict advisory_dict self)
      as [[done|e] self1]; simpl in Hrow |- *; [|exact Hrow].
    destruct Hrow as (Hext & Hpath & Hset).
    assert (Hnext : forall l, let self' := snd (upload_loop W family general_metadata_dict
                                                            rest l (total + 1) self1) in
                              extends_with well_formed_event self self'
                              /\ _metadata_path self' = _metadata_path self
                              /\ _openvas_settings_dict self' = _openvas_settings_dict self).
    { intros l. destruct (IH l (total + 1) self1) as (Hext' & Hpath' & Hset').
      split; [eapply extends_with_trans; eassumption|]. split; congruence. }
    destruct done; simpl; apply Hnext.
Qed.

(** Counting: when the loop returns, it has read every row and loaded as
    many as it wrote to the KB. *)
Lemma upload_loop_writes (csv_reader : list items) :
  forall (loaded total loaded' total' : nat) (self self' : @Handler C),
    upload_loop W family general_metadata_dict csv_reader loaded total self
    = (Ok (loaded', total'), self') ->
    exists evs,
      trace self' = trace self ++ evs
      /\ loaded' = loaded + length (List.filter is_kb_write evs)
      /\ total' = total + length csv_reader.
Proof.
  induction csv_reader as [|advisory_dict rest IH];
    intros loaded total loaded' total' self self' Hrun.
  - simpl in Hrun. unfold ret in Hrun. injection Hrun as <- <- <-.
    exists []. simpl. repeat split; [symmetry; apply app_nil_r | lia | lia].
  - simpl in Hrun. unfold bind in Hrun. rewrite upload_advisory_run in Hrun.
    assert (Hstep : forall (l : nat) (evs0 : list event) (self1 : @Handler C),
               trace self1 = trace self ++ evs0 ->
               l = loaded + length (List.filter is_kb_write evs0) ->
               upload_loop W family general_metadata_dict rest l (total + 1) self1
               = (Ok (loaded', total'), self') ->
               exists evs,
                 trace self' = trace self ++ evs
                 /\ loaded' = loaded + length (List.filter is_kb_write evs)
                 /\ total' = total + length (advisory_dict :: rest)).
    { intros l evs0 self1 Htrace Hl Hrest.
      apply IH in Hrest as (evs & Htrace' & Hloaded & Htotal).
      exists (evs0 ++ evs). split; [|split].
      - rewrite Htrace', Htrace. symmetry. apply app_assoc.
      - rewrite List.filter_app, length_app. lia.
      - simpl. lia. }
    destruct (_check_advisory_dict advisory_dict) as [[|]|e]; simpl in Hrun;
      [| |discriminate].
    + destruct (advisory_metadata_list (PDict advisory_dict) general_metadata_dict family)
        as [[kb_key_string vt]|e]; simpl in Hrun; [|discriminate].
      destruct (kb_of_handler W self) as [cache|]; simpl in Hrun.
      * destruct (add_vt_to_cache cache kb_key_string vt) as [cache'|e]; simpl in Hrun.
        -- refine (Hstep _ [KbWrite kb_key_string vt] _ _ _ Hrun);
             [reflexivity | simpl; lia].
        -- destruct e; simpl in Hrun; try discriminate.
           refine (Hstep _ [Log WARNING LSC_NOT_LOADED] _ _ _ Hrun);
             [reflexivity | simpl; lia].
      * refine (Hstep _ [Log WARNING LSC_NOT_LOADED] _ _ _ Hrun);
          [reflexivity | simpl; lia].
    + refine (Hstep _ [] _ _ _ Hrun); [symmetry; apply app_nil_r | simpl; lia].
Qed.

End UploadFrame.

Lemma upload_lsc_frame {C : Type} `{!NVTICache C} `{!Ast}
        (W : @World C) (file_name : string) (family general_metadata_dict : PyVal)
        (csv_reader : list items) (self : @Handler C) :
  let self' := snd (upload_lsc_from_csv_reader W file_name family general_metadata_dict
                                               csv_reader self) in
  extends_with well_formed_event self self'
  /\ _metadata_path self' = _metadata_path self
  /\ _openvas_settings_dict self' = _openvas_settings_dict self.
Proof.
  unfold upload_lsc_from_csv_reader, bind.
  pose proof (upload_loop_frame W family general_metadata_dict csv_reader 0 0 self) as Hloop.
  simpl in Hloop.
  destruct (upload_loop W family general_metadata_dict csv_reader 0 0 self)
    as [[counts|e] self1]; simpl in Hloop |- *; [|exact Hloop].
  destruct Hloop as (Hext & Hpath & Hset).
  split; [|split; assumption].
  eapply extends_with_trans; [exact Hext|].
  eexists [_]. split; [reflexivity|]. constructor; [exact I | constructor].
Qed.

(** Whatever [upload_lsc_from_csv_reader] does, and also when it raises,
    it only adds events to the trace; every KB write among them has a key
    that starts with [nvt:] and a list of exactly 15 entries; and the
    metadata path and the cached settings of the handler stay as they
    were. *)
Theorem upload_writes_are_well_formed {C : Type} `{!NVTICache C} `{!Ast}
        (W : @World C) (file_name : string) (family general_metadata_dict : PyVal)
        (csv_reader : list items) (self : @Handler C) :
  let self' := snd (upload_lsc_from_csv_reader W file_name family general_metadata_dict
                                               csv_reader self) in
  extends_with well_formed_event self self'
  /\ _metadata_path self' = _metadata_path self
  /\ _openvas_settings_dict self' = _openvas_settings_dict self.
Proof. exact (upload_lsc_frame W file_name family general_metadata_dict csv_reader self). Qed.

(** When [upload_lsc_from_csv_reader] returns, the last record it logged
    gives the number of KB writes it made over the number of rows of the
    reader, and its result says whether the two are equal. *)
Theorem upload_logs_what_it_loaded {C : Type} `{!NVTICache C} `{!Ast}
        (W : @World C) (file_name : string) (family general_metadata_dict : PyVal)
        (csv_reader : list items) (self self' : @Handler C) (b : bool) :
  upload_lsc_from_csv_reader W file_name family general_metadata_dict csv_reader self
  = (Ok b, self') ->
  exists evs,
    let loaded := length (List.filter is_kb_write evs) in
    let total := length csv_reader in
    trace self' = trace self ++ evs ++ [Log DEBUG (loaded_message loaded total file_name)]
    /\ b = Nat.eqb loaded total.
Proof.
  unfold upload_lsc_from_csv_reader, bind. intros Hrun.
  destruct (upload_loop W family general_metadata_dict csv_reader 0 0 self)
    as [[[loaded total]|e] self1] eqn:Hloop; [|discriminate].
  apply upload_loop_writes in Hloop as (evs & Htrace & Hloaded & Htotal).
  simpl in Hrun. unfold emit, ret in Hrun. simpl in Hrun.
  injection Hrun as <- <-. simpl in Hloaded, Htotal. subst loaded total.
  exists evs. simpl. split; [|reflexivity].
  rewrite Htrace, <- app_assoc. reflexivity.
Qed.

Lemma upload_logs_what_it_loaded_witness :
  exists evs,
    let loaded := length (List.filter is_kb_write evs) in
    let total := 2 in
    trace (snd (upload_lsc_from_csv_reader
                  (world_of 1 []) "good.csv" (PStr "Family A") general_metadata
                  [ advisory_with "['pkg']" "['CVE-2020-1']" "['http://y']";
                    advisory_with "[]" "['CVE-2020-1']" "['http://y']" ]
                  fresh_handler))
    = trace fresh_handler ++ evs ++ [Log DEBUG (loaded_message loaded total "good.csv")]
    /\ false = Nat.eqb loaded total.
Proof.
  apply (upload_logs_what_it_loaded
           (world_of 1 []) "good.csv" (PStr "Family A") general_metadata
           [ advisory_with "['pkg']" "['CVE-2020-1']" "['http://y']";
             advisory_with "[]" "['CVE-2020-1']" "['http://y']" ]
           fresh_handler _ false).
  vm_compute. reflexivity.
Defined.

(** With a KB that can be reached and that takes every list of 15 entries,
    a row that the validator accepts and for which the metadata list can be
    built is always loaded: the warning branch of the upload is not
    taken. *)
Theorem upload_advisory_accepting_cache {C : Type} `{!NVTICache C} `{!Ast}
        (W : @World C) (family general_metadata_dict : PyVal)
        (advisory_dict : items) (self : @Handler C) (cache : C)
        (kb_key_string : string) (vt : list PyVal) :
  (forall (c : C) (vt_id : string) (l : list PyVal),
      length l = 15 -> exists c', add_vt_to_cache c vt_id l = Ok c') ->
  kb_of_handler W self = Some cache ->
  _check_advisory_dict advisory_dict = Ok true ->
  advisory_metadata_list (PDict advisory_dict) general_metadata_dict family
  = Ok (kb_key_string, vt) ->
  exists cache',
    add_vt_to_cache cache kb_key_string vt = Ok cache'
    /\ upload_advisory W family general_metadata_dict advisory_dict self
       = (Ok true, mkHandler (Some cache') (_metadata_path self)
                             (_openvas_settings_dict self)
                             (trace self ++ [KbWrite kb_key_string vt])).
Proof.
  intros Haccepts Hkb Hcheck Hlist.
  destruct (Haccepts cache kb_key_string vt) as (cache' & Hadd).
  { eapply advisory_metadata_list_length. exact Hlist. }
  exists cache'. split; [exact Hadd|].
  rewrite upload_advisory_run, Hcheck, Hlist, Hkb, Hadd. reflexivity.
Qed.

Lemma upload_advisory_accepting_cache_witness :
  fst (upload_advisory (world_of 1 []) (PStr "Family A") general_metadata
                       (advisory_with "['pkg']" "['CVE-2020-1']" "['http://y']")
                       fresh_handler)
  = Ok true.
Proof.
  edestruct (upload_advisory_accepting_cache
               (world_of 1 []) (PStr "Family A") general_metadata
               (advisory_with "['pkg']" "['CVE-2020-1']" "['http://y']")
               fresh_handler empty_kb) as (cache' & _ & Hrun).
  - intros c vt_id l Hl. simpl. rewrite Hl. simpl. eauto.
  - reflexivity.
  - vm_compute. reflexivity.
  - vm_compute. reflexivity.
  - rewrite Hrun. reflexivity.
Defined.

(** ** What only reads *)

Section ReadOnlyFacts.
Context {C : Type} `{!NVTICache C} `{!Ast} `{!Hashlib}.
Variable W : @World C.

Lemma read_only_intro (self self' : @Handler C) (evs : list event) :
  trace self' = trace self ++ evs ->
  Forall (fun e => is_kb_write e = false) evs ->
  kb_of_handler W self' = kb_of_handler W self ->
  read_only W self self'.
Proof. intros Htrace Hevs Hkb. split; [exists evs; split; assumption | exact Hkb]. Qed.

Lemma read_only_refl (self : @Handler C) : read_only W self self.
Proof.
  apply (read_only_intro self self []); [symmetry; apply app_nil_r | constructor | reflexivity].
Qed.

Lemma read_only_trans (a b c : @Handler C) :
  read_only W a b -> read_only W b c -> read_only W a c.
Proof.
  intros [(e1 & H1 & F1) K1] [(e2 & H2 & F2) K2].
  apply (read_only_intro a c (e1 ++ e2)).
  - rewrite H2, H1. symmetry. apply app_assoc.
  - apply Forall_app. split; assumption.
  - congruence.
Qed.

(** Reading only is kept by sequencing. *)
Lemma read_only_bind {A B : Type} (m : @M C A) (k : A -> @M C B) :
  (forall self, read_only W self (snd (m self))) ->
  (forall a self, read_only W self (snd (k a self))) ->
  forall self, read_only W self (snd (bind m k self)).
Proof.
  intros Hm Hk self. unfold bind. specialize (Hm self).
  destruct (m self) as [[a|e] self1]; simpl in Hm |- *.
  - eapply read_only_trans; [exact Hm | apply Hk].
  - exact Hm.
Qed.

Lemma read_only_emit (e : event) :
  is_kb_write e = false -> forall self : @Handler C, read_only W self (snd (emit e self)).
Proof.
  intros He self. apply (read_only_intro _ _ [e]);
    [reflexivity | constructor; [exact He | constructor] | reflexivity].
Qed.

Lemma read_only_openvas_setting (self : @Handler C) :
  read_only W self (snd (openvas_setting W self)).
Proof.
  rewrite openvas_setting_run.
  apply (read_only_intro _ _ []); [symmetry; apply app_nil_r | constructor | reflexivity].
Qed.

Lemma read_only_nvti (self : @Handler C) : read_only W self (snd (nvti W self)).
Proof.
  destruct (kb_of_handler W self) as [cache|] eqn:Hkb.
  - rewrite (nvti_run W self cache Hkb).
    apply (read_only_intro _ _ []); [symmetry; apply app_nil_r | constructor |].
    rewrite Hkb. reflexivity.
  - rewrite (nvti_unreachable W self Hkb). apply read_only_refl.
Qed.

Lemma read_only_open_file (path mode : string) (self : @Handler C) :
  read_only W self (snd (open_file W path mode self)).
Proof.
  revert self. unfold open_file. apply read_only_bind.
  - apply read_only_emit. reflexivity.
  - intros _ self. destruct (lookup_file (files W) path); apply read_only_refl.
Qed.

Lemma read_only_metadata_path (self : @Handler C) :
  read_only W self (snd (metadata_path W self)).
Proof.
  unfold metadata_path.
  destruct (_metadata_path self) as [p|]; [apply read_only_refl|].
  unfold bind. rewrite openvas_setting_run.
  destruct (py_truth (settings_get (settings_of_handler W self) "plugins_folder")).
  - apply (read_only_intro _ _ []); [symmetry; apply app_nil_r | constructor | reflexivity].
  - destruct (negb _);
      (apply (read_only_intro _ _ []);
       [symmetry; apply app_nil_r | constructor | reflexivity]).
Qed.

Lemma read_only_get_csv_filepaths (self : @Handler C) :
  read_only W self (snd (_get_csv_filepaths W self)).
Proof.
  revert self. unfold _get_csv_filepaths. apply read_only_bind.
  - apply read_only_metadata_path.
  - intros dir. apply read_only_bind.
    + apply read_only_emit. reflexivity.
    + intros _ self. apply read_only_refl.
Qed.

Lemma read_only_is_checksum_correct (file_abs_path : string) (self : @Handler C) :
  read_only W self (snd (is_checksum_correct W file_abs_path self)).
Proof.
  revert self. unfold is_checksum_correct. apply read_only_bind.
  - apply read_only_openvas_setting.
  - intros settings.
    destruct (negb (py_truth (settings_get settings "nasl_no_signature_check")));
      [|intros self; apply read_only_refl].
    apply read_only_bind; [apply read_only_open_file|]. intros file_file_bytes.
    cbv zeta. apply read_only_bind; [apply read_only_nvti|]. intros cache.
    apply read_only_bind; [apply read_only_emit; reflexivity|]. intros _.
    destruct (negb _); intros self; apply read_only_refl.
Qed.

Lemma read_only_linkers_loop (csv_abs_filepaths_list : list string) :
  forall (family_driver_linkers : items) (self : @Handler C),
    read_only W self (snd (linkers_loop W csv_abs_filepaths_list family_driver_linkers self)).
Proof.
  induction csv_abs_filepaths_list as [|csv_abs_path rest IH]; intros family_driver_linkers.
  - intros self. apply read_only_refl.
  - simpl. apply read_only_bind; [apply read_only_is_checksum_correct|].
    intros [|]; simpl.
    + apply read_only_bind; [apply read_only_emit; reflexivity|]. intros _.
      apply read_only_bind.
      { unfold open_text. apply read_only_bind; [apply read_only_open_file|].
        intros content self. apply read_only_refl. }
      intros csv_file.
      apply read_only_bind; [intros self; apply read_only_refl|]. intros dict_entry.
      destruct (py_truth dict_entry); [|apply IH].
      apply read_only_bind; [intros self; apply read_only_refl|]. intros linkers.
      apply IH.
    + apply read_only_bind; [apply read_only_emit; reflexivity|]. intros _. apply IH.
Qed.

End ReadOnlyFacts.

(** [is_checksum_correct], [_get_csv_filepaths] and
    [get_family_driver_linkers] only read, whatever they return or raise:
    they add events to the trace, none of which is a KB write, and the KB
    that the handler reaches after them is the one it reached before. *)
Theorem checksum_and_linkers_only_read {C : Type} `{!NVTICache C} `{!Ast} `{!Hashlib}
        (W : @World C) (file_abs_path : string) (self : @Handler C) :
  read_only W self (snd (is_checksum_correct W file_abs_path self))
  /\ read_only W self (snd (_get_csv_filepaths W self))
  /\ read_only W self (snd (get_family_driver_linkers W self)).
Proof.
  split; [apply read_only_is_checksum_correct|].
  split; [apply read_only_get_csv_filepaths|].
  revert self. unfold get_family_driver_linkers. apply read_only_bind.
  - apply read_only_get_csv_filepaths.
  - intros csv_abs_filepaths_list. apply read_only_linkers_loop.
Qed.

(** ** One file of the directory *)

Section FileFacts.
Context {C : Type} `{!NVTICache C} `{!Ast} `{!Hashlib} `{!Csv}.
Variable W : @World C.


(** A file whose checksum does not match: one binary read, one KB read and
    the warning. *)
Lemma update_metadata_file_failed_run (self : @Handler C) (csv_abs_path : string) :
  checksum_outcome W self csv_abs_path = Some false ->
  exists cache,
    kb_of_handler W self = Some cache
    /\ update_metadata_file W csv_abs_path self
       = (Ok tt, mkHandler (Some cache) (_metadata_path self)
                           (Some (settings_of_handler W self))
                           (trace self ++ [FileOpen csv_abs_path "rb";
                                           KbChecksum csv_abs_path;
                                           checksum_failed csv_abs_path])).
Proof.
  unfold checksum_outcome.
  destruct (py_truth (settings_get (settings_of_handler W self) "nasl_no_signature_check"))
    eqn:Hsig; [discriminate|].
  destruct (lookup_file (files W) csv_abs_path) as [content|] eqn:Hfile; [|discriminate].
  destruct (kb_of_handler W self) as [cache|] eqn:Hkb; [|discriminate].
  intros Hsum. injection Hsum as Hsum.
  exists cache. split; [reflexivity|].
  unfold update_metadata_file. unfold bind at 1.
  rewrite (is_checksum_correct_enabled W self csv_abs_path content cache Hsig Hfile Hkb).
  rewrite Hsum. simpl. unfold emit. simpl. rewrite <- app_assoc. reflexivity.
Qed.

End FileFacts.

(** A file whose checksum does not match is skipped without being read as
    text: [update_metadata] opens it once in binary mode, asks the KB for
    its digest, logs the warning and goes on; it raises nothing and writes
    nothing. *)
Theorem update_metadata_file_checksum_failed {C : Type} `{!NVTICache C} `{!Ast}
        `{!Hashlib} `{!Csv} (W : @World C) (self : @Handler C) (csv_abs_path : string) :
  checksum_outcome W self csv_abs_path = Some false ->
  exists cache,
    kb_of_handler W self = Some cache
    /\ update_metadata_file W csv_abs_path self
       = (Ok tt, mkHandler (Some cache) (_metadata_path self)
                           (Some (settings_of_handler W self))
                           (trace self ++ [FileOpen csv_abs_path "rb";
                                           KbChecksum csv_abs_path;
                                           checksum_failed csv_abs_path])).
Proof. apply update_metadata_file_failed_run. Qed.

Lemma update_metadata_file_checksum_failed_witness :
  exists cache,
    kb_of_handler (checked_world [(GOOD, good_csv)]) fresh_handler = Some cache
    /\ update_metadata_file (checked_world [(GOOD, good_csv)]) GOOD fresh_handler
       = (Ok tt, mkHandler (Some cache) None
                           (Some (settings_of_handler (checked_world [(GOOD, good_csv)])
                                                      fresh_handler))
                           ([] ++ [FileOpen GOOD "rb"; KbChecksum GOOD;
                                   checksum_failed GOOD])).
Proof.
  apply (update_metadata_file_checksum_failed
           (checked_world [(GOOD, good_csv)]) fresh_handler GOOD).
  vm_compute. reflexivity.
Defined.







(** ** The whole directory *)

Section DirectoryFacts.
Context {C : Type} `{!NVTICache C} `{!Ast} `{!Hashlib} `{!Csv}.
Variable W : @World C.




End DirectoryFacts.



(** ** The writes of a whole run *)

Section RunFrame.
Context {C : Type} `{!NVTICache C} `{!Ast} `{!Hashlib} `{!Csv}.
Variable W : @World C.

Lemma read_only_well_formed (self self' : @Handler C) :
  read_only W self self' -> extends_with well_formed_event self self'.
Proof.
  intros [(evs & Htrace & Hevs) _]. exists evs. split; [exact Htrace|].
  eapply Forall_impl; [exact Hevs|].
  intros [| | | |vt_id vt] He; simpl in *; [exact I .. | discriminate He].
Qed.

Lemma well_formed_bind {A B : Type} (m : @M C A) (k : A -> @M C B) :
  (forall self, extends_with well_formed_event self (snd (m self))) ->
  (forall a self, extends_with well_formed_event self (snd (k a self))) ->
  forall self, extends_with well_formed_event self (snd (bind m k self)).
Proof.
  intros Hm Hk self. unfold bind. specialize (Hm self).
  destruct (m self) as [[a|e] self1]; simpl in Hm |- *.
  - eapply extends_with_trans; [exact Hm | apply Hk].
  - exact Hm.
Qed.

Lemma well_formed_emit_log (lvl : level) (msg : string) (self : @Handler C) :
  extends_with well_formed_event self (snd (emit (Log lvl msg) self)).
Proof.
  exists [Log lvl msg]. split; [reflexivity | constructor; [exact I | constructor]].
Qed.

Lemma well_formed_upload_and_report (csv_abs_path : string)
      (family general_metadata_dict : PyVal) (csv_reader : list items) :
  forall self : @Handler C,
    extends_with well_formed_event self
      (snd (upload_and_report W csv_abs_path family general_metadata_dict csv_reader self)).
Proof.
  unfold upload_and_report. apply well_formed_bind.
  - intros self. apply upload_lsc_frame.
  - intros [|] self; simpl; [apply extends_with_refl | apply well_formed_emit_log].
Qed.

Lemma well_formed_update_metadata_file (csv_abs_path : string) :
  forall self : @Handler C,
    extends_with well_formed_event self (snd (update_metadata_file W csv_abs_path self)).
Proof.
  unfold update_metadata_file. apply well_formed_bind.
  { intros self. apply read_only_well_formed, read_only_is_checksum_correct. }
  intros [|]; simpl; [|intros self; apply well_formed_emit_log].
  apply well_formed_bind; [intros self; apply well_formed_emit_log|]. intros _.
  apply well_formed_bind.
  { intros self. apply read_only_well_formed. revert self.
    unfold open_text. apply read_only_bind; [apply read_only_open_file|].
    intros content self. apply read_only_refl. }
  intros csv_file. destruct (parse_family_driver_link csv_file) as [r csv_file'].
  apply well_formed_bind; [intros self; apply extends_with_refl|].
  intros family_and_driver_dict.
  apply well_formed_bind; [intros self; apply extends_with_refl|]. intros popped.
  cbv zeta. destruct (scan_line "{" (io_rest csv_file')) as [found rest].
  apply well_formed_bind.
  { destruct found; intros self; apply extends_with_refl. }
  intros general_metadata_dict.
  destruct (negb _); [intros self; apply well_formed_emit_log|].
  apply well_formed_upload_and_report.
Qed.

Lemma well_formed_for_each (csv_abs_filepaths_list : list string) :
  forall self : @Handler C,
    extends_with well_formed_event self
      (snd (for_each csv_abs_filepaths_list (update_metadata_file W) self)).
Proof.
  induction csv_abs_filepaths_list as [|csv_abs_path rest IH].
  - intros self. apply extends_with_refl.
  - simpl. apply well_formed_bind; [apply well_formed_update_metadata_file|].
    intros _. exact IH.
Qed.

End RunFrame.

(** Whatever a run of [update_metadata] does, and also when an exception
    ends it, the trace only grows, and every KB write of the run has a key
    that starts with [nvt:] and a list of exactly 15 entries. *)
Theorem update_metadata_writes_are_well_formed {C : Type} `{!NVTICache C} `{!Ast}
        `{!Hashlib} `{!Csv} (W : @World C) (self : @Handler C) :
  extends_with well_formed_event self (snd (update_metadata W self)).
Proof.
  revert self. unfold update_metadata. apply well_formed_bind.
  { intros self. apply (read_only_well_formed W), read_only_openvas_setting. }
  intros settings. destruct (negb _); [intros self; apply extends_with_refl|].
  apply well_formed_bind; [intros self; apply well_formed_emit_log|]. intros _.
  apply well_formed_bind.
  { intros self. apply (read_only_well_formed W), read_only_get_csv_filepaths. }
  intros csv_abs_filepaths_list.
  apply well_formed_bind; [apply well_formed_for_each|].
  intros _ self. apply well_formed_emit_log.
Qed.

(** ** The rows of the reader *)

Lemma map_PStr_inj (l l' : list string) : map PStr l = map PStr l' -> l = l'.
Proof.
  revert l'. induction l as [|a l IH]; intros [|b l'] Heq; try discriminate Heq.
  - reflexivity.
  - injection Heq as -> Heq. f_equal. apply IH. exact Heq.
Qed.

(** A row under the expected field names: a row that is too short leaves
    [None] under the last names, and the validator refuses it; in an
    accepted row every expected name has its cell, which is not empty. *)
Lemma row_dict_fields `{!Ast} (row : list string) (name : string) :
  _check_advisory_dict (row_dict EXPECTED_FIELD_NAMES_LIST row) = Ok true ->
  In name EXPECTED_FIELD_NAMES_LIST ->
  exists s : string,
    dict_get (row_dict EXPECTED_FIELD_NAMES_LIST row) (PStr name) = Some (PStr s)
    /\ s <> "".
Proof.
  intros Htrue Hname.
  pose proof (check_advisory_dict_falsy (row_dict EXPECTED_FIELD_NAMES_LIST row)) as Hfalsy.
  do 17 (destruct row as [|? row];
         [ exfalso; apply (Hfalsy (PStr "FILENAME") PNone);
           [ cbv; repeat first [left; reflexivity | right]
           | reflexivity
           | exact Htrue ]
         | ]).
  match type of Htrue with
  | _check_advisory_dict ?d = _ =>
      assert (Hcell : forall (key cell : string), In (PStr key, PStr cell) d -> cell <> "")
  end.
  { intros key cell Hin ->. exact (Hfalsy (PStr key) (PStr "") Hin eq_refl Htrue). }
  simpl in Hname.
  destruct row as [|extra row];
    repeat (destruct Hname as [<-|Hname];
            [ eexists; split;
              [ reflexivity
              | eapply Hcell; cbv; repeat first [left; reflexivity | right] ]
            | ]);
    contradiction.
Qed.

(** In a file that passes the field names check, every row that the
    validator accepts has a cell that is a non-empty string for each of the
    17 expected names: rows that are too short are refused, and the
    subscripts of the upload on the record do not raise [KeyError]. *)
Theorem accepted_rows_have_the_fields `{!Ast} (reader : list (list string))
        (advisory_dict : items) (name : string) :
  _check_field_names_lsc (fieldnames reader) = true ->
  In advisory_dict (reader_rows reader) ->
  _check_advisory_dict advisory_dict = Ok true ->
  In name EXPECTED_FIELD_NAMES_LIST ->
  exists s : string,
    py_getitem (PDict advisory_dict) name = Ok (PStr s) /\ s <> "".
Proof.
  intros Hnames Hrow Htrue Hname.
  destruct reader as [|names rows]; [discriminate Hnames|].
  unfold _check_field_names_lsc, fieldnames in Hnames.
  destruct (py_eqb (PList (map PStr EXPECTED_FIELD_NAMES_LIST)) (PList (map PStr names)))
    eqn:Heq; [|discriminate Hnames].
  apply py_eqb_str_list, map_PStr_inj in Heq. subst names.
  simpl in Hrow. apply in_map_iff in Hrow as (row & <- & _).
  destruct (row_dict_fields row name Htrue Hname) as (s & Hget & Hs).
  exists s. split; [|exact Hs]. simpl. rewrite Hget. reflexivity.
Qed.

Lemma accepted_rows_have_the_fields_witness :
  exists s : string,
    py_getitem (PDict (nth 0 (reader_rows (csv_reader (skipn 3 (readlines small_csv)))) []))
               "TITLE" = Ok (PStr s)
    /\ s <> "".
Proof.
  apply (accepted_rows_have_the_fields
           (csv_reader (skipn 3 (readlines small_csv)))
           (nth 0 (reader_rows (csv_reader (skipn 3 (readlines small_csv)))) [])
           "TITLE").
  - vm_compute. reflexivity.
  - vm_compute. left. reflexivity.
  - vm_compute. reflexivity.
  - simpl. tauto.
Defined.
